(** * git-branch-delete: the branch selection and deletion workflow

    A shallow embedding of the two implementations the repository holds,
    [src/git-branch-delete.ts] (module [GitBranchDelete]) and the second
    script, written with callbacks (module [Part000]), and the properties
    of the specification stated over them.

    JavaScript strings are sequences of UTF-16 code units; a code unit is
    a number in [N].  Literals are written through [js]. *)

From Stdlib Require Import List NArith ZArith Bool Arith Lia.
From Stdlib Require Import String Ascii DecimalString Permutation Sorted.
Import ListNotations.

Set Implicit Arguments.

(** ** The string built-ins the program calls *)

Module JS.

Definition code_unit := N.
Definition jsstring := list code_unit.

Definition js (s : string) : jsstring :=
  map N_of_ascii (list_ascii_of_string s).

Definition cu_eqb (a b : code_unit) : bool := N.eqb a b.

Fixpoint str_eqb (a b : jsstring) : bool :=
  match a, b with
  | [], [] => true
  | x :: a', y :: b' => cu_eqb x y && str_eqb a' b'
  | _, _ => false
  end.

(** ECMAScript WhiteSpace and LineTerminator code points: what
    [String.prototype.trim] strips and what [\s] matches. *)
Definition isWhiteSpace (c : code_unit) : bool :=
  ((9 <=? c) && (c <=? 13)            (* TAB, LF, VT, FF, CR *)
   || (c =? 32)                       (* SPACE *)
   || (c =? 160)                      (* NBSP *)
   || (c =? 5760)                     (* U+1680 *)
   || ((8192 <=? c) && (c <=? 8202))  (* U+2000 .. U+200A *)
   || (c =? 8232) || (c =? 8233)      (* LS, PS *)
   || (c =? 8239) || (c =? 8287)      (* U+202F, U+205F *)
   || (c =? 12288)                    (* U+3000 *)
   || (c =? 65279))%N.                (* U+FEFF *)

Fixpoint dropWhile (p : code_unit -> bool) (s : jsstring) : jsstring :=
  match s with
  | [] => []
  | c :: s' => if p c then dropWhile p s' else s
  end.

Definition trimStart (s : jsstring) : jsstring := dropWhile isWhiteSpace s.
Definition trimEnd (s : jsstring) : jsstring := rev (trimStart (rev s)).

(** [s.trim()] *)
Definition trim (s : jsstring) : jsstring := trimEnd (trimStart s).

(** [s.startsWith(p)] *)
Fixpoint startsWith (p s : jsstring) : bool :=
  match p, s with
  | [], _ => true
  | _ :: _, [] => false
  | x :: p', y :: s' => cu_eqb x y && startsWith p' s'
  end.

(** [s.substring(n)] *)
Definition substring (n : nat) (s : jsstring) : jsstring := skipn n s.

(** [s.split(sep)] for a non-empty separator string (both call sites pass
    a literal).  The scan goes left to right: [cur] holds the code units
    of the field being read, in reverse; at a position where [sep]
    starts the field is closed and the [skip] remaining code units
    of the separator are passed over.  The last field is always
    emitted, so the empty string splits into one empty field. *)
Fixpoint split_scan (sep : jsstring) (skip : nat) (cur s : jsstring)
  : list jsstring :=
  match s with
  | [] => [rev cur]
  | c :: rest =>
      match skip with
      | S k => split_scan sep k cur rest
      | O =>
          if startsWith sep s
          then rev cur :: split_scan sep (List.length sep - 1) [] rest
          else split_scan sep 0 (c :: cur) rest
      end
  end.

Definition split (sep s : jsstring) : list jsstring := split_scan sep 0 [] s.

(** [arr.join(sep)] on an array of strings *)
Fixpoint join (sep : jsstring) (l : list jsstring) : jsstring :=
  match l with
  | [] => []
  | [x] => x
  | x :: rest => x ++ sep ++ join sep rest
  end.

(** [String(n)] for a non-negative integer, as template literals print it *)
Definition ofNat (n : nat) : jsstring := js (NilZero.string_of_uint (Nat.to_uint n)).

(** Truthiness of a string: [Boolean(s)] *)
Definition truthy (s : jsstring) : bool :=
  match s with [] => false | _ :: _ => true end.

(** [arr.map(f)] where the callback may raise: the first exception
    aborts the whole call. *)
Fixpoint mapM {A B : Type} (f : A -> option B) (l : list A) : option (list B) :=
  match l with
  | [] => Some []
  | x :: rest =>
      match f x with
      | None => None
      | Some y =>
          match mapM f rest with
          | None => None
          | Some ys => Some (y :: ys)
          end
      end
  end.

Definition LF : jsstring := js (String (ascii_of_nat 10) EmptyString).
Definition delim : jsstring := js ":::".
Definition Unknown : jsstring := js "Unknown".

End JS.
Import JS.

(** ** The process, its collaborators and what it does to them *)

Module Runtime.

(** An absolute, resolved POSIX path as [process.cwd()] returns it: the
    components from the deepest directory up to the one under the root, so
    that "/" is [[]] and "/a/b" is [[b; a]].  [resolve(dir, "..")] is the
    tail, [resolve(dir, ".git")] is [js ".git" :: dir]. *)
Definition path := list jsstring.

Definition dotGit (dir : path) : path := js ".git" :: dir.

Inductive exec_result :=
| ExecOk (stdout : jsstring)
| ExecErr (message : jsstring).

(** How an enquirer prompt ends: with a value, by cancellation (the
    promise rejects), or never. *)
Inductive prompt_result (A : Type) :=
| Answered (a : A)
| Cancelled
| Unanswered.
Arguments Cancelled {A}.
Arguments Unanswered {A}.

(** One action of the user at the free-text prompt. *)
Inductive attempt :=
| Submit (input : jsstring)
| Escape.

Inductive style := yellow | blue | green | red | red_bold_underline.

Record BranchChoice := {
  choice_name : jsstring;
  message : jsstring;
  value : jsstring
}.

Inductive event :=
| ConsoleLog (text : jsstring)
| ConsoleError (text : jsstring)
| ExecStart (cmd : jsstring)
| ExecDone (cmd : jsstring) (r : exec_result)
| PromptMultiselect (choices : list BranchChoice)
                    (r : prompt_result (list jsstring))
| PromptInput (msg : jsstring) (typed : list attempt)
              (r : prompt_result jsstring)
| ProcessExit (code : Z).

(** What has happened so far, most recent event first. *)
Definition history := list event.

(** Everything outside the program.  The answers of the collaborators may
    depend on all that happened before. *)
Record World := {
  cwd : path;
  existsSync : path -> bool;
  colors : style -> jsstring -> jsstring;
  localeCompare : jsstring -> jsstring -> Z;
  exec : history -> jsstring -> exec_result;
  multiselect : history -> list BranchChoice -> prompt_result (list jsstring);
  keyboard : history -> jsstring -> list attempt
}.

(** How an async function ends. *)
Inductive outcome (A : Type) :=
| Return (a : A)
| Throw (message : jsstring)
| Exit (code : Z)
| Pending.
Arguments Throw {A}.
Arguments Exit {A}.
Arguments Pending {A}.

Definition M (A : Type) := World -> history -> outcome A * history.

Definition ret {A} (a : A) : M A := fun _ h => (Return a, h).

Definition bind {A B} (m : M A) (k : A -> M B) : M B :=
  fun w h =>
    match m w h with
    | (Return a, h') => k a w h'
    | (Throw e, h') => (Throw e, h')
    | (Exit c, h') => (Exit c, h')
    | (Pending, h') => (Pending, h')
    end.

Definition throw {A} (e : jsstring) : M A := fun _ h => (Throw e, h).

(** [try { m } catch (error) { handler(error.message) }] *)
Definition tryCatch {A} (m : M A) (handler : jsstring -> M A) : M A :=
  fun w h =>
    match m w h with
    | (Throw e, h') => handler e w h'
    | r => r
    end.

Definition emit (e : event) : M unit := fun _ h => (Return tt, e :: h).

Definition consoleLog (s : jsstring) : M unit := emit (ConsoleLog s).
Definition consoleError (s : jsstring) : M unit := emit (ConsoleError s).

(** [colors.<style>(s)] *)
Definition paint (st : style) (s : jsstring) : M jsstring :=
  fun w h => (Return (colors w st s), h).

(** [process.exit(code)] *)
Definition processExit {A} (code : Z) : M A :=
  fun _ h => (Exit code, ProcessExit code :: h).

(** [await execAsync(cmd)]: resolves with the stdout or rejects with the
    error of the child process. *)
Definition execAsync (cmd : jsstring) : M jsstring :=
  fun w h =>
    let r := exec w h cmd in
    let h' := ExecDone cmd r :: ExecStart cmd :: h in
    match r with
    | ExecOk out => (Return out, h')
    | ExecErr e => (Throw e, h')
    end.

(** enquirer's multiselect prompt. *)
Definition promptMultiselect (choices : list BranchChoice)
  : M (prompt_result (list jsstring)) :=
  fun w h =>
    let r := multiselect w h choices in
    (Return r, PromptMultiselect choices r :: h).

(** enquirer's input prompt with a validator: a submitted line that the
    validator rejects is asked again; the first accepted line is the
    answer; escape cancels. *)
Fixpoint runInput (validate : jsstring -> bool) (typed : list attempt)
  : prompt_result jsstring :=
  match typed with
  | [] => Unanswered
  | Escape :: _ => Cancelled
  | Submit s :: rest => if validate s then Answered s else runInput validate rest
  end.

Definition promptInput (msg : jsstring) (validate : jsstring -> bool)
  : M (prompt_result jsstring) :=
  fun w h =>
    let typed := keyboard w h msg in
    let r := runInput validate typed in
    (Return r, PromptInput msg typed r :: h).

Definition pending {A} : M A := fun _ h => (Pending, h).

(** [arr.sort(compare)]: the sort is stable, and [compare] is a
    consistent comparison, so the result is that of a stable insertion. *)
Section Sort.

Context {A : Type} (compare : A -> A -> Z).

Fixpoint insert (x : A) (l : list A) : list A :=
  match l with
  | [] => [x]
  | y :: l' => if (compare x y <=? 0)%Z then x :: l else y :: insert x l'
  end.

Fixpoint sort (l : list A) : list A :=
  match l with
  | [] => []
  | x :: l' => insert x (sort l')
  end.

End Sort.

(** [Number(b)] *)
Definition Number (b : bool) : Z := if b then 1%Z else 0%Z.

(** The exit code of the process once [main()] has ended that way; an
    unhandled rejection ends a Node process with code 1. *)
Definition exitCode (o : outcome unit) : option Z :=
  match o with
  | Return _ => Some 0%Z
  | Exit c => Some c
  | Throw _ => Some 1%Z
  | Pending => None
  end.

Definition quote : code_unit := 34%N.
Definition yes : jsstring := js "yes".
Definition no : jsstring := js "no".

(** [/^(yes|no)$/.test(input)], and [input === "yes" || input === "no"] *)
Definition validateYesNo (input : jsstring) : bool :=
  str_eqb input yes || str_eqb input no.

(** [names.map((name, i) => ` ${i + 1}. ${name}`)] from index [i] on *)
Fixpoint numbered (i : nat) (names : list jsstring) : list jsstring :=
  match names with
  | [] => []
  | n :: rest => (js " " ++ ofNat (i + 1) ++ js ". " ++ n) :: numbered (S i) rest
  end.

End Runtime.
Import Runtime.

Declare Scope prog_scope.
Delimit Scope prog_scope with prog.
Notation "x <- m ;; k" := (bind m (fun x => k))
  (at level 61, m at next level, right associativity) : prog_scope.
Notation "m ;;; k" := (bind m (fun _ => k))
  (at level 61, right associativity) : prog_scope.
Open Scope prog_scope.

(** ** src/git-branch-delete.ts *)

Module GitBranchDelete.

Record GitBranch := {
  name : jsstring;
  lastCommitRelative : jsstring;
  lastCommit : jsstring;
  isCurrent : bool
}.

(** [prefix.replace(/^[\s*]+/, '')]: leading whitespace and stars go. *)
Definition stripMarker (prefix : jsstring) : jsstring :=
  dropWhile (fun c => isWhiteSpace c || (c =? 42)%N) prefix.

(** The callback of [.map] in [getGitBranches].  [None] is the TypeError
    of [prefix.startsWith] on an undefined [prefix]. *)
Definition parseLine (line : jsstring) : option GitBranch :=
  match split delim line with
  | [] => None
  | prefix :: parts =>
      Some {| name := stripMarker prefix;
              lastCommitRelative :=
                match nth_error parts 0 with Some r => r | None => Unknown end;
              lastCommit :=
                match nth_error parts 1 with Some d => d | None => [] end;
              isCurrent := startsWith (js "*") prefix |}
  end.

(** What [getGitBranches] computes from the stdout of the command:
    [stdout.trim().split("\n").map(...).filter((branch) => branch.name)]. *)
Definition parseBranches (stdout : jsstring) : option (list GitBranch) :=
  match mapM parseLine (split LF (trim stdout)) with
  | None => None
  | Some branches => Some (filter (fun b => truthy (name b)) branches)
  end.

(** [findGitRoot]: the loop runs while [dir !== "/"]. *)
Fixpoint findGitRootFrom (fs : path -> bool) (dir : path) : bool :=
  match dir with
  | [] => false
  | _ :: parent => if fs (dotGit dir) then true else findGitRootFrom fs parent
  end.

Definition findGitRoot : M bool :=
  fun w h => (Return (findGitRootFrom (existsSync w) (cwd w)), h).

Definition listCmd : jsstring :=
  js "git branch -v --format=" ++ [quote] ++
  js "%(if)%(HEAD)%(then)*%(else) %(end)%(refname:short):::%(committerdate:relative):::%(committerdate:iso8601)"
  ++ [quote].

Definition typeError : jsstring :=
  js "Cannot read properties of undefined (reading 'startsWith')".

Definition getGitBranches : M (list GitBranch) :=
  tryCatch
    (stdout <- execAsync listCmd ;;
     match parseBranches stdout with
     | Some branches => ret branches
     | None => throw typeError
     end)
    (fun e => throw (js "Failed to get git branches: " ++ e)).

Definition byName (w : World) (a b : GitBranch) : Z :=
  localeCompare w (name a) (name b).

Definition currentFirst (a b : GitBranch) : Z :=
  (Number (isCurrent b) - Number (isCurrent a))%Z.

Definition toChoice (b : GitBranch) : BranchChoice :=
  {| choice_name := name b;
     message := name b ++ js " (" ++ lastCommitRelative b ++ js ")";
     value := name b |}.

(** [const [current, ...others] = branches.sort(...).sort(...)] *)
Definition sorted (w : World) (branches : list GitBranch) : list GitBranch :=
  sort currentFirst (sort (byName w) branches).

Definition others (w : World) (branches : list GitBranch) : list GitBranch :=
  tl (sorted w branches).

(** The choice list handed to the multiselect prompt. *)
Definition choices (w : World) (branches : list GitBranch) : list BranchChoice :=
  map toChoice (others w branches).

Definition selectBranchNames (branches : list GitBranch) : M (list jsstring) :=
  fun w =>
    (match sorted w branches with
     | current :: _ =>
         if isCurrent current
         then
           line <- paint yellow (js "Current branch: " ++ name current ++ js " ("
                                 ++ lastCommitRelative current ++ js ")") ;;
           consoleLog line
         else ret tt
     | [] => ret tt
     end ;;;
     r <- promptMultiselect (choices w branches) ;;
     match r with
     | Answered branchNames => ret branchNames
     | Cancelled =>
         line <- paint blue (js "Exiting without deleting any branches.") ;;
         consoleLog line ;;;
         processExit 0
     | Unanswered => pending
     end) w.

Definition confirmMessage (w : World) (n : nat) : jsstring :=
  js "Delete these " ++ ofNat n ++ js " branches? Type " ++ colors w green yes
  ++ js " or " ++ colors w green no.

Definition confirmDeletion (branches : list jsstring) : M bool :=
  fun w =>
    (match branches with
     | [] => ret false
     | _ :: _ =>
         head <- paint red_bold_underline
                   (js "You have selected these branches to delete:") ;;
         consoleLog head ;;;
         consoleLog (join LF (numbered 0 branches)) ;;;
         r <- promptInput (confirmMessage w (List.length branches)) validateYesNo ;;
         match r with
         | Answered confirmation => ret (str_eqb confirmation yes)
         | Cancelled => ret false
         | Unanswered => pending
         end
     end) w.

(** [`git branch -D ${branches.map((b) => `'${b}'`).join(" ")}`] *)
Definition deleteCmd (branches : list jsstring) : jsstring :=
  js "git branch -D " ++
  join (js " ") (map (fun b => js "'" ++ b ++ js "'") branches).

Definition deleteBranches (branches : list jsstring) : M unit :=
  match branches with
  | [] => ret tt
  | _ :: _ =>
      tryCatch
        (stdout <- execAsync (deleteCmd branches) ;;
         consoleLog stdout ;;;
         line <- paint green (js "All selected branches deleted.") ;;
         consoleLog line)
        (fun e => throw (js "Failed to delete branches: " ++ e))
  end.

Definition soleCurrent (branches : list GitBranch) : bool :=
  match branches with
  | [b] => isCurrent b
  | _ => false
  end.

Definition main : M unit :=
  tryCatch
    (found <- findGitRoot ;;
     if negb found
     then
       line <- paint blue
         (js "Not a Git repository. Please navigate to a directory with a .git folder.") ;;
       consoleLog line
     else
       branches <- getGitBranches ;;
       if soleCurrent branches
       then
         line <- paint blue (js "Only one branch (current) exists. Nothing to do.") ;;
         consoleLog line
       else
         selectedBranches <- selectBranchNames branches ;;
         match selectedBranches with
         | [] => ret tt
         | _ :: _ =>
             confirmed <- confirmDeletion selectedBranches ;;
             if negb confirmed
             then
               line <- paint blue (js "No branches deleted.") ;;
               consoleLog line
             else deleteBranches selectedBranches
         end)
    (fun e =>
       line <- paint red (js "Error: " ++ e) ;;
       consoleError line ;;;
       processExit 1).

(** One run of the program in the world [w]. *)
Definition run (w : World) : outcome unit * history := main w [].

End GitBranchDelete.

(** ** The second script *)

Module Part000.

(** [lastCommit] is undefined at run time when the line has fewer than
    three fields, whatever the interface declares. *)
Record GitBranch := {
  name : jsstring;
  lastCommitRelative : jsstring;
  lastCommit : option jsstring;
  isCurrent : bool
}.

(** The callback of [.map] in [getGitBranches].  [None] stands for a
    record whose [name] is undefined, which the type [GitBranch] excludes
    (and which the filter on the empty name would let through). *)
Definition parseLine (line : jsstring) : option GitBranch :=
  match split delim (substring 2 line) with
  | [] => None
  | n :: rest =>
      Some {| name := n;
              lastCommit := nth_error rest 1;
              lastCommitRelative :=
                match nth_error rest 0 with
                | Some r => if truthy r then r else Unknown
                | None => Unknown
                end;
              isCurrent := startsWith (js "*:") line |}
  end.

(** [stdout.split("\n").map(...).filter(...)], the filter keeping the
    records whose name is not the empty string *)
Definition parseBranches (stdout : jsstring) : option (list GitBranch) :=
  match mapM parseLine (split LF stdout) with
  | None => None
  | Some branches => Some (filter (fun b => negb (str_eqb (name b) [])) branches)
  end.

(** [isGitRepository]: every directory is probed, the root included. *)
Fixpoint isGitRepositoryFrom (fs : path -> bool) (dir : path) {struct dir} : bool :=
  if fs (dotGit dir) then true
  else match dir with
       | [] => false
       | _ :: parent => isGitRepositoryFrom fs parent
       end.

Definition isGitRepository : M bool :=
  fun w h => (Return (isGitRepositoryFrom (existsSync w) (cwd w)), h).

Definition listCmd : jsstring :=
  js "git for-each-ref --sort=committerdate refs/heads/ --format='%(HEAD):%(refname:short):::%(committerdate:relative):::%(committerdate:iso8601)'".

(** The promise rejects with the error of the child process.  A record
    with an undefined name (see [parseLine]) would only fail later, in the
    comparison of [selectBranchNames]; it is turned into a rejection here. *)
Definition getGitBranches : M (list GitBranch) :=
  stdout <- execAsync listCmd ;;
  match parseBranches stdout with
  | Some branches => ret branches
  | None => throw (js "Cannot read properties of undefined (reading 'localeCompare')")
  end.

Definition byName (w : World) (a b : GitBranch) : Z :=
  localeCompare w (name a) (name b).

Definition toChoice (b : GitBranch) : BranchChoice :=
  {| choice_name := name b;
     message := name b ++ js " (" ++ lastCommitRelative b ++ js ")";
     value := name b |}.

(** [branches.slice().sort(...)] *)
Definition sortedBranches (w : World) (branches : list GitBranch) : list GitBranch :=
  sort (byName w) branches.

Definition otherBranches (w : World) (branches : list GitBranch) : list GitBranch :=
  filter (fun b => negb (isCurrent b)) (sortedBranches w branches).

(** The choice list handed to the multiselect prompt. *)
Definition choices (w : World) (branches : list GitBranch) : list BranchChoice :=
  map toChoice (otherBranches w branches).

Definition selectBranchNames (branches : list GitBranch) : M (list jsstring) :=
  fun w =>
    (match find isCurrent (sortedBranches w branches) with
     | Some currentBranch =>
         line <- paint yellow (js "Current branch: " ++ name currentBranch ++ js " ("
                               ++ lastCommitRelative currentBranch ++ js ")") ;;
         consoleLog line
     | None => ret tt
     end ;;;
     r <- promptMultiselect (choices w branches) ;;
     match r with
     | Answered branchNames => ret branchNames
     | Cancelled =>
         line <- paint blue (js "Exiting without deleting any branches.") ;;
         consoleLog line ;;;
         processExit 0
     | Unanswered => pending
     end) w.

Definition confirmMessage (w : World) (n : nat) : jsstring :=
  js "Delete these " ++ ofNat n ++ js " branches? Type " ++ colors w green yes
  ++ js " or " ++ colors w green no.

(** No guard for the empty list and no handler around the prompt: a
    cancelled prompt rejects the promise of [askForConfirmation]. *)
Definition askForConfirmation (branchesToDelete : list jsstring) : M bool :=
  fun w =>
    (head <- paint red_bold_underline
               (js "You have selected these branches to delete:") ;;
     consoleLog head ;;;
     consoleLog (join LF (numbered 0 branchesToDelete)) ;;;
     r <- promptInput (confirmMessage w (List.length branchesToDelete)) validateYesNo ;;
     match r with
     | Answered confirmation => ret (str_eqb confirmation yes)
     | Cancelled => throw []
     | Unanswered => pending
     end) w.

(** [`git branch -D '${branchName}'`] *)
Definition deleteCmd (branchName : jsstring) : jsstring :=
  js "git branch -D '" ++ branchName ++ js "'".

(** [branchesToDelete.map(...)]: every command is printed and started
    before any of them completes. *)
Fixpoint startAll (w : World) (h : history) (names : list jsstring)
  : history * list (jsstring * exec_result) :=
  match names with
  | [] => (h, [])
  | b :: rest =>
      let h1 := ConsoleLog (deleteCmd b) :: h in
      let r := exec w h1 (deleteCmd b) in
      let '(h2, rs) := startAll w (ExecStart (deleteCmd b) :: h1) rest in
      (h2, (b, r) :: rs)
  end.

(** The callback of [child_process.exec] for one branch. *)
Definition callback (br : jsstring * exec_result) (h : history) : history :=
  match snd br with
  | ExecErr e =>
      ConsoleError (js "Error deleting branch " ++ fst br ++ js ": " ++ e)
        :: ExecDone (deleteCmd (fst br)) (snd br) :: h
  | ExecOk out => ConsoleLog out :: ExecDone (deleteCmd (fst br)) (snd br) :: h
  end.

(** The callbacks run one after the other, here in the order the commands
    were started.  [Promise.all] settles at the first rejection, or once
    all have resolved; the callbacks left over run after that. *)
Fixpoint untilSettled (w : World) (h : history) (rs : list (jsstring * exec_result))
  : outcome unit * history * list (jsstring * exec_result) :=
  match rs with
  | [] =>
      (Return tt,
       ConsoleLog (colors w green (js "All selected branches deleted.")) :: h, [])
  | (b, ExecOk out) :: rest => untilSettled w (callback (b, ExecOk out) h) rest
  | (b, ExecErr e) :: rest => (Throw e, callback (b, ExecErr e) h, rest)
  end.

Definition runLate (rs : list (jsstring * exec_result)) (h : history) : history :=
  fold_left (fun h' br => callback br h') rs h.

(** The outcome of the returned promise, the history when it settles, and
    the callbacks still to run. *)
Definition deleteBranches (branchesToDelete : list jsstring) (w : World) (h : history)
  : outcome unit * history * list (jsstring * exec_result) :=
  let '(h1, rs) := startAll w h branchesToDelete in
  untilSettled w h1 rs.

Definition soleCurrent (branches : list GitBranch) : bool :=
  match branches with
  | [b] => isCurrent b
  | _ => false
  end.

(** [try { await deleteBranches(...) } catch (error) { console.error(...) }] *)
Definition deleteAndReport (branchesToDelete : list jsstring) : M unit :=
  fun w h =>
    match deleteBranches branchesToDelete w h with
    | (Throw e, h1, rest) =>
        (Return tt,
         runLate rest
           (ConsoleError (js "An error occurred while deleting branches: " ++ e) :: h1))
    | (o, h1, rest) => (o, runLate rest h1)
    end.

Definition main : M unit :=
  found <- isGitRepository ;;
  if negb found
  then
    line <- paint blue
      (js "This is not a Git repository. Please go to a directoy with .git directory.") ;;
    consoleLog line
  else
    branches <- getGitBranches ;;
    if soleCurrent branches
    then
      line <- paint blue
        (js "There is only one branch (the current branch). Nothing to do.") ;;
      consoleLog line
    else
      branchesToDelete <- selectBranchNames branches ;;
      match branchesToDelete with
      | [] => ret tt
      | _ :: _ =>
          confirmed <- askForConfirmation branchesToDelete ;;
          if negb confirmed
          then consoleLog (js "No branches deleted.")
          else deleteAndReport branchesToDelete
      end.

(** One run of the program in the world [w]. *)
Definition run (w : World) : outcome unit * history := main w [].

End Part000.


(** ** The vocabulary of the specification *)

Module Spec.

(** The directories from [dir] upward, the root included: the path the
    Repository Locator is to walk. *)
Fixpoint ancestors (dir : path) : list path :=
  dir :: match dir with
         | [] => []
         | _ :: parent => ancestors parent
         end.

(** A force-delete invocation of the version-control system. *)
Definition isDeleteCmd (cmd : jsstring) : bool :=
  startsWith (js "git branch -D ") cmd.

(** The commands started in a stretch of history, oldest first. *)
Fixpoint started (h : history) : list jsstring :=
  match h with
  | [] => []
  | ExecStart cmd :: h' => started h' ++ [cmd]
  | _ :: h' => started h'
  end.

(** No force-delete has been started in [h]. *)
Definition deleteFree (h : history) : Prop :=
  forall cmd, In cmd (started h) -> isDeleteCmd cmd = false.

(** The given names, each in single quotes, separated by one space. *)
Fixpoint quotedArgs (names : list jsstring) : jsstring :=
  match names with
  | [] => []
  | [b] => js "'" ++ b ++ js "'"
  | b :: rest => js "'" ++ b ++ js "' " ++ quotedArgs rest
  end.

(** [s.includes(sep)] for a non-empty [sep]: [sep] starts somewhere in [s]. *)
Fixpoint includes (sep s : jsstring) : bool :=
  match s with
  | [] => false
  | _ :: rest => startsWith sep s || includes sep rest
  end.

(** No colon in [s] (git allows none in a branch name). *)
Definition noColon (s : jsstring) : bool :=
  forallb (fun c => negb (c =? 58)%N) s.

(** [s] does not begin with white space or a star. *)
Definition startsPlain (s : jsstring) : bool :=
  match s with
  | [] => true
  | c :: _ => negb (isWhiteSpace c || (c =? 42)%N)
  end.

(** No newline in [s]. *)
Definition noLF (s : jsstring) : bool :=
  forallb (fun c => negb (c =? 10)%N) s.

(** [s] does not end with white space. *)
Definition endsPlain (s : jsstring) : bool :=
  match rev s with
  | [] => true
  | c :: _ => negb (isWhiteSpace c)
  end.

(** The text of the given lines, each followed by a newline: the stdout
    of a command that prints them. *)
Definition printed (lines : list jsstring) : jsstring :=
  List.concat (map (fun l => l ++ LF) lines).

(** The line the format of [GitBranchDelete.listCmd] makes of a branch:
    a star or a blank, then short name, relative and ISO date of the
    last commit, the three joined by the delimiter. *)
Definition branchLine (b : GitBranchDelete.GitBranch) : jsstring :=
  (if GitBranchDelete.isCurrent b then js "*" else js " ")
  ++ GitBranchDelete.name b ++ delim
  ++ GitBranchDelete.lastCommitRelative b ++ delim
  ++ GitBranchDelete.lastCommit b.

(** A record as a repository can hold it: a name that is not empty, has
    no colon and no newline and does not begin with white space or a
    star; dates on one line, the relative one without a colon, the
    absolute one without the delimiter and not ending in white space. *)
Definition printable (b : GitBranchDelete.GitBranch) : bool :=
  truthy (GitBranchDelete.name b) && startsPlain (GitBranchDelete.name b)
  && noColon (GitBranchDelete.name b) && noLF (GitBranchDelete.name b)
  && noColon (GitBranchDelete.lastCommitRelative b)
  && noLF (GitBranchDelete.lastCommitRelative b)
  && negb (includes delim (GitBranchDelete.lastCommit b))
  && noLF (GitBranchDelete.lastCommit b)
  && endsPlain (GitBranchDelete.lastCommit b).

(** The line the format of [Part000.listCmd] makes of a branch: a star
    or a blank, a colon, then the same three fields. *)
Definition refLine (b : Part000.GitBranch) : jsstring :=
  (if Part000.isCurrent b then 42%N else 32%N) :: 58%N
  :: Part000.name b ++ delim
  ++ Part000.lastCommitRelative b ++ delim
  ++ match Part000.lastCommit b with Some d => d | None => [] end.

Definition printableRef (b : Part000.GitBranch) : bool :=
  truthy (Part000.name b)
  && noColon (Part000.name b) && noLF (Part000.name b)
  && truthy (Part000.lastCommitRelative b)
  && noColon (Part000.lastCommitRelative b)
  && noLF (Part000.lastCommitRelative b)
  && match Part000.lastCommit b with
     | Some d => negb (includes delim d) && noLF d
     | None => false
     end.

Definition isPrompt (e : event) : bool :=
  match e with
  | PromptMultiselect _ _ | PromptInput _ _ _ => true
  | _ => false
  end.

(** The events of the external version-control calls. *)
Definition isExec (e : event) : bool :=
  match e with
  | ExecStart _ | ExecDone _ _ => true
  | _ => false
  end.

(** The completion of an external call. *)
Definition isExecDone (e : event) : bool :=
  match e with
  | ExecDone _ _ => true
  | _ => false
  end.

(** An external call failed: the source of a ListError or DeletionError. *)
Definition isExecFailure (e : event) : bool :=
  match e with
  | ExecDone _ (ExecErr _) => true
  | _ => false
  end.

End Spec.
Import Spec.

(** ** Sample inputs and worlds *)

Module Samples.

(** A comparison by code units, standing in for [localeCompare] in the
    sample worlds. *)
Fixpoint codeUnitCompare (a b : jsstring) : Z :=
  match a, b with
  | [], [] => 0
  | [], _ :: _ => -1
  | _ :: _, [] => 1
  | x :: a', y :: b' =>
      if (x <? y)%N then -1
      else if (y <? x)%N then 1
      else codeUnitCompare a' b'
  end.

(** A world with a fixed working directory and file system, where the
    listing command answers [listed], a deletion answers [deleted], the
    user answers the multiselect prompt with [picked] and types [typed]
    at the input prompt.  Colours are off. *)
Definition world (dir : path) (fs : path -> bool) (listed : exec_result)
    (picked : prompt_result (list jsstring)) (typed : list attempt)
    (deleted : exec_result) : World :=
  {| cwd := dir;
     existsSync := fs;
     colors := fun _ s => s;
     localeCompare := codeUnitCompare;
     exec := fun _ cmd => if isDeleteCmd cmd then deleted else listed;
     multiselect := fun _ _ => picked;
     keyboard := fun _ _ => typed |}.

(** The file system in which only [dir] holds a [.git] entry. *)
Definition onlyRepoAt (dir : path) (p : path) : bool :=
  if list_eq_dec (list_eq_dec N.eq_dec) p (dotGit dir) then true else false.

Definition home : path := [js "proj"; js "home"].

Definition specOutput : jsstring :=
  js "*:::main:::2 hours ago:::2024-01-01T00:00:00+0000" ++ LF ++
  js " :::feature:::3 days ago:::2023-12-29T00:00:00+0000" ++ LF.

Definition branchOutput : jsstring :=
  js "*main:::2 hours ago:::2024-01-01T00:00:00+0000" ++ LF ++
  js " feature:::3 days ago:::2023-12-29T00:00:00+0000" ++ LF.

Definition forEachRefOutput : jsstring :=
  js "*:main:::2 hours ago:::2024-01-01T00:00:00+0000" ++ LF ++
  js " :feature:::3 days ago:::2023-12-29T00:00:00+0000" ++ LF.

(** Three branches, [main] checked out, as each enumeration command
    prints them. *)
Definition threeBranches : jsstring :=
  js "*main:::2 hours ago:::2024-01-01T00:00:00+0000" ++ LF ++
  js " feature-a:::3 days ago:::2023-12-29T00:00:00+0000" ++ LF ++
  js " feature-b:::4 days ago:::2023-12-28T00:00:00+0000" ++ LF.

Definition threeRefs : jsstring :=
  js "*:main:::2 hours ago:::2024-01-01T00:00:00+0000" ++ LF ++
  js " :feature-a:::3 days ago:::2023-12-29T00:00:00+0000" ++ LF ++
  js " :feature-b:::4 days ago:::2023-12-28T00:00:00+0000" ++ LF.

Definition bothFeatures : list jsstring := [js "feature-a"; js "feature-b"].

(** The user picks both features and answers "maybe", then [answer]. *)
Definition session (listed : jsstring) (answer : attempt) (deleted : exec_result)
  : World :=
  world home (onlyRepoAt home) (ExecOk listed) (Answered bothFeatures)
    [Submit (js "maybe"); answer] deleted.

(** A repository with the checked-out branch only. *)
Definition soleBranch (listed : jsstring) : World :=
  world home (onlyRepoAt home) (ExecOk listed) (Answered []) [] (ExecOk []).

End Samples.
Import Samples.

(** ** The state machine of the Orchestrator

    Where a run stops and what has been done by then, in terms of the
    components: the transitions of the specification, one relation for
    each implementation. *)

Module Workflow.

Inductive terminal :=
| NotARepository
| ListFailed
| NothingToDo
| SelectionCancelled
| SelectionPending
| NothingSelected
| ConfirmationCancelled
| ConfirmationPending
| Declined
| Deleted
| DeletionFailed.

Definition located (w : World) : bool :=
  GitBranchDelete.findGitRootFrom (existsSync w) (cwd w).

Definition reportError (w : World) (e : jsstring) (h : history) : history :=
  ProcessExit 1 :: ConsoleError (colors w red (js "Error: " ++ e)) :: h.

Inductive ends (w : World) : terminal -> outcome unit * history -> Prop :=
| ends_NotARepository :
    located w = false ->
    ends w NotARepository
      (Return tt,
       [ConsoleLog (colors w blue
          (js "Not a Git repository. Please navigate to a directory with a .git folder."))])
| ends_ListFailed e h :
    located w = true ->
    GitBranchDelete.getGitBranches w [] = (Throw e, h) ->
    ends w ListFailed (Exit 1, reportError w e h)
| ends_NothingToDo b h :
    located w = true ->
    GitBranchDelete.getGitBranches w [] = (Return [b], h) ->
    GitBranchDelete.isCurrent b = true ->
    ends w NothingToDo
      (Return tt,
       ConsoleLog (colors w blue
         (js "Only one branch (current) exists. Nothing to do.")) :: h)
| ends_SelectionCancelled branches h h1 :
    located w = true ->
    GitBranchDelete.getGitBranches w [] = (Return branches, h) ->
    GitBranchDelete.soleCurrent branches = false ->
    GitBranchDelete.selectBranchNames branches w h = (Exit 0, h1) ->
    ends w SelectionCancelled (Exit 0, h1)
| ends_SelectionPending branches h h1 :
    located w = true ->
    GitBranchDelete.getGitBranches w [] = (Return branches, h) ->
    GitBranchDelete.soleCurrent branches = false ->
    GitBranchDelete.selectBranchNames branches w h = (Pending, h1) ->
    ends w SelectionPending (Pending, h1)
| ends_NothingSelected branches h h1 :
    located w = true ->
    GitBranchDelete.getGitBranches w [] = (Return branches, h) ->
    GitBranchDelete.soleCurrent branches = false ->
    GitBranchDelete.selectBranchNames branches w h = (Return [], h1) ->
    ends w NothingSelected (Return tt, h1)
| ends_ConfirmationPending branches selected h h1 h2 :
    located w = true ->
    GitBranchDelete.getGitBranches w [] = (Return branches, h) ->
    GitBranchDelete.soleCurrent branches = false ->
    GitBranchDelete.selectBranchNames branches w h = (Return selected, h1) ->
    selected <> [] ->
    GitBranchDelete.confirmDeletion selected w h1 = (Pending, h2) ->
    ends w ConfirmationPending (Pending, h2)
| ends_Declined branches selected h h1 h2 :
    located w = true ->
    GitBranchDelete.getGitBranches w [] = (Return branches, h) ->
    GitBranchDelete.soleCurrent branches = false ->
    GitBranchDelete.selectBranchNames branches w h = (Return selected, h1) ->
    selected <> [] ->
    GitBranchDelete.confirmDeletion selected w h1 = (Return false, h2) ->
    ends w Declined
      (Return tt, ConsoleLog (colors w blue (js "No branches deleted.")) :: h2)
| ends_Deleted branches selected h h1 h2 h3 :
    located w = true ->
    GitBranchDelete.getGitBranches w [] = (Return branches, h) ->
    GitBranchDelete.soleCurrent branches = false ->
    GitBranchDelete.selectBranchNames branches w h = (Return selected, h1) ->
    selected <> [] ->
    GitBranchDelete.confirmDeletion selected w h1 = (Return true, h2) ->
    GitBranchDelete.deleteBranches selected w h2 = (Return tt, h3) ->
    ends w Deleted (Return tt, h3)
| ends_DeletionFailed branches selected h h1 h2 h3 e :
    located w = true ->
    GitBranchDelete.getGitBranches w [] = (Return branches, h) ->
    GitBranchDelete.soleCurrent branches = false ->
    GitBranchDelete.selectBranchNames branches w h = (Return selected, h1) ->
    selected <> [] ->
    GitBranchDelete.confirmDeletion selected w h1 = (Return true, h2) ->
    GitBranchDelete.deleteBranches selected w h2 = (Throw e, h3) ->
    ends w DeletionFailed (Exit 1, reportError w e h3).

Definition locatedPart000 (w : World) : bool :=
  Part000.isGitRepositoryFrom (existsSync w) (cwd w).

Inductive endsPart000 (w : World) : terminal -> outcome unit * history -> Prop :=
| Part000_NotARepository :
    locatedPart000 w = false ->
    endsPart000 w NotARepository
      (Return tt,
       [ConsoleLog (colors w blue
          (js "This is not a Git repository. Please go to a directoy with .git directory."))])
| Part000_ListFailed e h :
    locatedPart000 w = true ->
    Part000.getGitBranches w [] = (Throw e, h) ->
    endsPart000 w ListFailed (Throw e, h)
| Part000_NothingToDo b h :
    locatedPart000 w = true ->
    Part000.getGitBranches w [] = (Return [b], h) ->
    Part000.isCurrent b = true ->
    endsPart000 w NothingToDo
      (Return tt,
       ConsoleLog (colors w blue
         (js "There is only one branch (the current branch). Nothing to do.")) :: h)
| Part000_SelectionCancelled branches h h1 :
    locatedPart000 w = true ->
    Part000.getGitBranches w [] = (Return branches, h) ->
    Part000.soleCurrent branches = false ->
    Part000.selectBranchNames branches w h = (Exit 0, h1) ->
    endsPart000 w SelectionCancelled (Exit 0, h1)
| Part000_SelectionPending branches h h1 :
    locatedPart000 w = true ->
    Part000.getGitBranches w [] = (Return branches, h) ->
    Part000.soleCurrent branches = false ->
    Part000.selectBranchNames branches w h = (Pending, h1) ->
    endsPart000 w SelectionPending (Pending, h1)
| Part000_NothingSelected branches h h1 :
    locatedPart000 w = true ->
    Part000.getGitBranches w [] = (Return branches, h) ->
    Part000.soleCurrent branches = false ->
    Part000.selectBranchNames branches w h = (Return [], h1) ->
    endsPart000 w NothingSelected (Return tt, h1)
| Part000_ConfirmationCancelled branches selected h h1 h2 e :
    locatedPart000 w = true ->
    Part000.getGitBranches w [] = (Return branches, h) ->
    Part000.soleCurrent branches = false ->
    Part000.selectBranchNames branches w h = (Return selected, h1) ->
    selected <> [] ->
    Part000.askForConfirmation selected w h1 = (Throw e, h2) ->
    endsPart000 w ConfirmationCancelled (Throw e, h2)
| Part000_ConfirmationPending branches selected h h1 h2 :
    locatedPart000 w = true ->
    Part000.getGitBranches w [] = (Return branches, h) ->
    Part000.soleCurrent branches = false ->
    Part000.selectBranchNames branches w h = (Return selected, h1) ->
    selected <> [] ->
    Part000.askForConfirmation selected w h1 = (Pending, h2) ->
    endsPart000 w ConfirmationPending (Pending, h2)
| Part000_Declined branches selected h h1 h2 :
    locatedPart000 w = true ->
    Part000.getGitBranches w [] = (Return branches, h) ->
    Part000.soleCurrent branches = false ->
    Part000.selectBranchNames branches w h = (Return selected, h1) ->
    selected <> [] ->
    Part000.askForConfirmation selected w h1 = (Return false, h2) ->
    endsPart000 w Declined (Return tt, ConsoleLog (js "No branches deleted.") :: h2)
| Part000_Deleted branches selected h h1 h2 h3 rest :
    locatedPart000 w = true ->
    Part000.getGitBranches w [] = (Return branches, h) ->
    Part000.soleCurrent branches = false ->
    Part000.selectBranchNames branches w h = (Return selected, h1) ->
    selected <> [] ->
    Part000.askForConfirmation selected w h1 = (Return true, h2) ->
    Part000.deleteBranches selected w h2 = (Return tt, h3, rest) ->
    endsPart000 w Deleted (Return tt, Part000.runLate rest h3)
| Part000_DeletionFailed branches selected h h1 h2 h3 rest e :
    locatedPart000 w = true ->
    Part000.getGitBranches w [] = (Return branches, h) ->
    Part000.soleCurrent branches = false ->
    Part000.selectBranchNames branches w h = (Return selected, h1) ->
    selected <> [] ->
    Part000.askForConfirmation selected w h1 = (Return true, h2) ->
    Part000.deleteBranches selected w h2 = (Throw e, h3, rest) ->
    endsPart000 w DeletionFailed
      (Return tt,
       Part000.runLate rest
         (ConsoleError (js "An error occurred while deleting branches: " ++ e) :: h3)).

End Workflow.
Import Workflow.

(** ** Facts about the string built-ins *)

Section StringFacts.

Lemma str_eqb_eq a b : str_eqb a b = true <-> a = b.
Proof.
  revert b; induction a as [|x a IH]; intros [|y b]; simpl;
    try (split; (discriminate || reflexivity)).
  unfold cu_eqb. rewrite andb_true_iff, N.eqb_eq, IH.
  split; [intros [-> ->]; reflexivity | intros H; injection H; auto].
Qed.

Lemma str_eqb_neq a b : str_eqb a b = false <-> a <> b.
Proof.
  rewrite <- str_eqb_eq. destruct (str_eqb a b); split; congruence.
Qed.

Lemma truthy_nonempty s : truthy s = true <-> s <> [].
Proof. destruct s; simpl; split; congruence. Qed.

(** [split] never returns an empty array. *)
Lemma split_scan_nonempty sep skip cur s : split_scan sep skip cur s <> [].
Proof.
  revert skip cur.
  induction s as [|c rest IH]; intros skip cur; cbn [split_scan].
  - discriminate.
  - destruct skip as [|k]; [|apply IH].
    destruct (startsWith sep (c :: rest)); [discriminate | apply IH].
Qed.

(** Skipping the rest of a separator is dropping it. *)
Lemma split_scan_skip sep k cur s :
  k <= List.length s ->
  split_scan sep k cur s = split_scan sep 0 cur (skipn k s).
Proof.
  revert s. induction k as [|k IH]; intros s Hk; [reflexivity|].
  destruct s as [|c rest]; simpl in Hk; [lia|].
  cbn [split_scan skipn]. apply IH. lia.
Qed.

Lemma startsWith_app p s :
  startsWith p s = true -> s = p ++ skipn (List.length p) s.
Proof.
  revert s. induction p as [|x p IH]; intros s H; [reflexivity|].
  destruct s as [|y s]; simpl in H; [discriminate|].
  apply andb_true_iff in H. destruct H as [Hxy H].
  apply N.eqb_eq in Hxy. subst y. simpl. f_equal. apply IH, H.
Qed.

Lemma join_cons sep x l :
  l <> [] -> join sep (x :: l) = x ++ sep ++ join sep l.
Proof. destruct l; [congruence | reflexivity]. Qed.

(** Joining the fields of [s.split(sep)] with [sep] gives [s] back. *)
Lemma join_split_scan sep n :
  sep <> [] ->
  forall s cur, List.length s <= n ->
  join sep (split_scan sep 0 cur s) = rev cur ++ s.
Proof.
  intros Hsep. induction n as [|n IH]; intros s cur Hn.
  - destruct s; simpl in Hn; [|lia]. simpl. rewrite app_nil_r. reflexivity.
  - destruct s as [|c rest]; [simpl; rewrite app_nil_r; reflexivity|].
    simpl in Hn. cbn [split_scan].
    destruct (startsWith sep (c :: rest)) eqn:P.
    + pose proof (startsWith_app _ _ P) as E.
      destruct sep as [|x sep']; [congruence|].
      simpl in E. injection E as Ec Erest.
      assert (Hlen : List.length sep' <= List.length rest).
      { rewrite Erest, length_app. lia. }
      replace (List.length (x :: sep') - 1) with (List.length sep')
        by (simpl; lia).
      rewrite split_scan_skip by exact Hlen.
      rewrite join_cons by apply split_scan_nonempty.
      rewrite IH by (rewrite length_skipn; lia).
      subst c. cbn [rev app]. rewrite <- Erest. reflexivity.
    + rewrite IH by lia. simpl. rewrite <- app_assoc. reflexivity.
Qed.

Lemma join_split sep s : sep <> [] -> join sep (split sep s) = s.
Proof.
  intros Hsep. unfold split.
  rewrite (@join_split_scan sep (List.length s) Hsep s []); [reflexivity | lia].
Qed.

Lemma split_cons sep s : exists first rest, split sep s = first :: rest.
Proof.
  unfold split. destruct (split_scan sep 0 [] s) as [|f r] eqn:E.
  - exfalso. exact (split_scan_nonempty _ _ _ _ E).
  - eauto.
Qed.

Lemma mapM_Some {A B} (f : A -> option B) l :
  (forall x, In x l -> exists y, f x = Some y) ->
  exists ys, mapM f l = Some ys.
Proof.
  induction l as [|x l IH]; intros Hf; simpl; [eauto|].
  destruct (Hf x (or_introl eq_refl)) as [y ->].
  destruct IH as [ys ->]; [intros; apply Hf; right; assumption | eauto].
Qed.

End StringFacts.

(** ** The Branch Lister *)

Section Lister.

Lemma GitBranchDelete_parseLine_total line :
  exists b, GitBranchDelete.parseLine line = Some b.
Proof.
  unfold GitBranchDelete.parseLine.
  destruct (split_cons delim line) as (f & r & ->). eauto.
Qed.

Lemma Part000_parseLine_total line :
  exists b, Part000.parseLine line = Some b.
Proof.
  unfold Part000.parseLine.
  destruct (split_cons delim (substring 2 line)) as (f & r & ->). eauto.
Qed.

End Lister.

(** C1, as the specification states it: on the output with the marker
    in a field of its own, the parsing step of [src/git-branch-delete.ts]
    drops both lines (the name is what is left of the first field, and
    nothing is left of it), and the second script reads the names
    ["::main"] and ["::feature"]. *)
Lemma C1_spec_output_not_two_records :
  GitBranchDelete.parseBranches specOutput <>
    Some [ {| GitBranchDelete.name := js "main";
              GitBranchDelete.lastCommitRelative := js "2 hours ago";
              GitBranchDelete.lastCommit := js "2024-01-01T00:00:00+0000";
              GitBranchDelete.isCurrent := true |};
           {| GitBranchDelete.name := js "feature";
              GitBranchDelete.lastCommitRelative := js "3 days ago";
              GitBranchDelete.lastCommit := js "2023-12-29T00:00:00+0000";
              GitBranchDelete.isCurrent := false |} ]
  /\ Part000.parseBranches specOutput <>
    Some [ {| Part000.name := js "main";
              Part000.lastCommitRelative := js "2 hours ago";
              Part000.lastCommit := Some (js "2024-01-01T00:00:00+0000");
              Part000.isCurrent := true |};
           {| Part000.name := js "feature";
              Part000.lastCommitRelative := js "3 days ago";
              Part000.lastCommit := Some (js "2023-12-29T00:00:00+0000");
              Part000.isCurrent := false |} ].
Proof. split; vm_compute; discriminate. Qed.

(** What the two parsers make of that output. *)
Lemma spec_output_parsed :
  GitBranchDelete.parseBranches specOutput = Some []
  /\ option_map (map Part000.name) (Part000.parseBranches specOutput)
     = Some [js "::main"; js "::feature"].
Proof. split; vm_compute; reflexivity. Qed.

(** C1, amended: on the output in the format of its own enumeration
    command (marker and name in one field: ["*main:::..."] for
    [git branch --format], ["*:main:::..."] for [git for-each-ref]) each
    parser produces exactly the two records, in that order. *)
Theorem C1_own_format_two_records :
  GitBranchDelete.parseBranches branchOutput =
    Some [ {| GitBranchDelete.name := js "main";
              GitBranchDelete.lastCommitRelative := js "2 hours ago";
              GitBranchDelete.lastCommit := js "2024-01-01T00:00:00+0000";
              GitBranchDelete.isCurrent := true |};
           {| GitBranchDelete.name := js "feature";
              GitBranchDelete.lastCommitRelative := js "3 days ago";
              GitBranchDelete.lastCommit := js "2023-12-29T00:00:00+0000";
              GitBranchDelete.isCurrent := false |} ]
  /\ Part000.parseBranches forEachRefOutput =
    Some [ {| Part000.name := js "main";
              Part000.lastCommitRelative := js "2 hours ago";
              Part000.lastCommit := Some (js "2024-01-01T00:00:00+0000");
              Part000.isCurrent := true |};
           {| Part000.name := js "feature";
              Part000.lastCommitRelative := js "3 days ago";
              Part000.lastCommit := Some (js "2023-12-29T00:00:00+0000");
              Part000.isCurrent := false |} ].
Proof. split; vm_compute; reflexivity. Qed.

(** C8: a line without a second field (no relative time) is parsed into
    a record whose [lastCommitRelative] is ["Unknown"], by both parsers. *)
Theorem C8_missing_relative_time_is_Unknown :
  (forall line, nth_error (split delim line) 1 = None ->
     exists b, GitBranchDelete.parseLine line = Some b
               /\ GitBranchDelete.lastCommitRelative b = Unknown)
  /\ (forall line, nth_error (split delim (substring 2 line)) 1 = None ->
     exists b, Part000.parseLine line = Some b
               /\ Part000.lastCommitRelative b = Unknown).
Proof.
  split; intros line Hmiss.
  - unfold GitBranchDelete.parseLine.
    destruct (split_cons delim line) as (f & r & E). rewrite E in *.
    simpl in Hmiss. eexists; split; [reflexivity|]. simpl.
    destruct r; [reflexivity | discriminate].
  - unfold Part000.parseLine.
    destruct (split_cons delim (substring 2 line)) as (f & r & E). rewrite E in *.
    simpl in Hmiss. eexists; split; [reflexivity|]. simpl.
    destruct r; [reflexivity | discriminate].
Qed.

Lemma C8_witness :
  (exists b, GitBranchDelete.parseLine (js " orphan") = Some b
             /\ GitBranchDelete.lastCommitRelative b = Unknown)
  /\ (exists b, Part000.parseLine (js " :orphan") = Some b
             /\ Part000.lastCommitRelative b = Unknown).
Proof.
  split.
  - apply (proj1 C8_missing_relative_time_is_Unknown (js " orphan")).
    vm_compute. reflexivity.
  - apply (proj2 C8_missing_relative_time_is_Unknown (js " :orphan")).
    vm_compute. reflexivity.
Defined.

(** C9: parsing never raises, whatever the stdout, and every record it
    returns has a non-empty name; for both parsers. *)
Theorem C9_parsing_total_names_nonempty (stdout : jsstring) :
  (exists branches, GitBranchDelete.parseBranches stdout = Some branches
     /\ Forall (fun b => GitBranchDelete.name b <> []) branches)
  /\ (exists branches, Part000.parseBranches stdout = Some branches
     /\ Forall (fun b => Part000.name b <> []) branches).
Proof.
  split.
  - unfold GitBranchDelete.parseBranches.
    destruct (mapM_Some GitBranchDelete.parseLine (split LF (trim stdout)))
      as [l ->]; [intros; apply GitBranchDelete_parseLine_total|].
    eexists; split; [reflexivity|].
    apply Forall_forall. intros b Hb. apply filter_In in Hb.
    apply truthy_nonempty, Hb.
  - unfold Part000.parseBranches.
    destruct (mapM_Some Part000.parseLine (split LF stdout))
      as [l ->]; [intros; apply Part000_parseLine_total|].
    eexists; split; [reflexivity|].
    apply Forall_forall. intros b Hb. apply filter_In in Hb.
    destruct Hb as [_ Hb]. apply negb_true_iff, str_eqb_neq in Hb. exact Hb.
Qed.

(** ** The Repository Locator *)

Section Locator.

Variable fs : path -> bool.

(** The second script answers whether some directory from the working
    directory up to the root holds a [.git] entry. *)
Lemma isGitRepositoryFrom_spec dir :
  Part000.isGitRepositoryFrom fs dir = true <->
  exists d, In d (ancestors dir) /\ fs (dotGit d) = true.
Proof.
  induction dir as [|c parent IH].
  - simpl. destruct (fs (dotGit [])) eqn:E.
    + split; [intros _; exists []; simpl; auto | reflexivity].
    + split; [discriminate|]. intros (d & [<-|[]] & Hd). congruence.
  - cbn [Part000.isGitRepositoryFrom ancestors].
    destruct (fs (dotGit (c :: parent))) eqn:E.
    + split; [intros _; exists (c :: parent); simpl; auto | reflexivity].
    + rewrite IH. split.
      * intros (d & Hin & Hd). exists d. split; [right; exact Hin | exact Hd].
      * intros (d & [<-|Hin] & Hd); [congruence | eauto].
Qed.

(** [findGitRoot] of [src/git-branch-delete.ts] answers the same
    question for the directories below the root only. *)
Lemma findGitRootFrom_spec dir :
  GitBranchDelete.findGitRootFrom fs dir = true <->
  exists d, In d (ancestors dir) /\ d <> [] /\ fs (dotGit d) = true.
Proof.
  induction dir as [|c parent IH].
  - simpl. split; [discriminate|].
    intros (d & [<-|[]] & Hne & _). congruence.
  - cbn [GitBranchDelete.findGitRootFrom ancestors].
    destruct (fs (dotGit (c :: parent))) eqn:E.
    + split; [intros _; exists (c :: parent); simpl; intuition discriminate
             | reflexivity].
    + rewrite IH. split.
      * intros (d & Hin & Hd). exists d. split; [right; exact Hin | exact Hd].
      * intros (d & [<-|Hin] & Hne & Hd); [congruence | eauto].
Qed.

End Locator.

(** C5: with the working directory at the root of a file system whose
    root holds [.git] (and likewise one level below it), [findGitRoot]
    of [src/git-branch-delete.ts] returns false although a directory on
    the path holds the entry; [isGitRepository] of the second script
    returns true there. *)
Theorem C5_findGitRoot_never_probes_root :
  In [] (ancestors []) /\ onlyRepoAt [] (dotGit []) = true
  /\ GitBranchDelete.findGitRootFrom (onlyRepoAt []) [] = false
  /\ GitBranchDelete.findGitRootFrom (onlyRepoAt []) [js "srv"] = false
  /\ Part000.isGitRepositoryFrom (onlyRepoAt []) [] = true
  /\ Part000.isGitRepositoryFrom (onlyRepoAt []) [js "srv"] = true.
Proof. repeat split; try (vm_compute; reflexivity). simpl; auto. Qed.

(** ** The Branch Selector *)

Section Sorting.

Context {A : Type} (compare : A -> A -> Z).

Lemma insert_perm x l : Permutation (insert compare x l) (x :: l).
Proof.
  induction l as [|y l IH]; simpl; [reflexivity|].
  destruct (compare x y <=? 0)%Z; [reflexivity|].
  rewrite IH. apply perm_swap.
Qed.

Lemma sort_perm l : Permutation (sort compare l) l.
Proof.
  induction l as [|x l IH]; simpl; [reflexivity|].
  rewrite insert_perm, IH. reflexivity.
Qed.

Lemma filter_perm (f : A -> bool) l l' :
  Permutation l l' -> Permutation (filter f l) (filter f l').
Proof.
  induction 1 as [|x l l' _ IH|x y l|l l' l'' _ IH1 _ IH2]; simpl.
  - reflexivity.
  - destruct (f x); [constructor|]; exact IH.
  - destruct (f x), (f y); try reflexivity. apply perm_swap.
  - etransitivity; eassumption.
Qed.

End Sorting.

Section Selector.

Variable w : World.

(** A stable sort on [Number(b.isCurrent) - Number(a.isCurrent)] moves
    the current records to the front and keeps the order otherwise. *)
Lemma insert_currentFirst x cur rest :
  Forall (fun b => GitBranchDelete.isCurrent b = true) cur ->
  Forall (fun b => GitBranchDelete.isCurrent b = false) rest ->
  insert GitBranchDelete.currentFirst x (cur ++ rest) =
    if GitBranchDelete.isCurrent x then x :: cur ++ rest else cur ++ x :: rest.
Proof.
  intros Hcur Hrest. destruct (GitBranchDelete.isCurrent x) eqn:Ex.
  - destruct (cur ++ rest) as [|y l]; simpl; [reflexivity|].
    unfold GitBranchDelete.currentFirst. rewrite Ex.
    destruct (GitBranchDelete.isCurrent y); reflexivity.
  - induction Hcur as [|y cur Hy _ IH]; simpl.
    + destruct Hrest as [|z rest Hz _]; simpl; [reflexivity|].
      unfold GitBranchDelete.currentFirst. rewrite Ex, Hz. reflexivity.
    + unfold GitBranchDelete.currentFirst at 1. rewrite Ex, Hy. simpl.
      rewrite IH. reflexivity.
Qed.

Lemma sort_currentFirst l :
  sort GitBranchDelete.currentFirst l =
    filter GitBranchDelete.isCurrent l
    ++ filter (fun b => negb (GitBranchDelete.isCurrent b)) l.
Proof.
  induction l as [|x l IH]; simpl; [reflexivity|].
  rewrite IH, insert_currentFirst.
  - destruct (GitBranchDelete.isCurrent x); reflexivity.
  - apply Forall_forall. intros b Hb. apply filter_In in Hb. apply Hb.
  - apply Forall_forall. intros b Hb. apply filter_In in Hb.
    apply negb_true_iff, Hb.
Qed.

(** Whatever the listing, the choice list of [src/git-branch-delete.ts]
    is the sorted listing without its first record. *)
Lemma GitBranchDelete_choices_length branches :
  List.length (GitBranchDelete.choices w branches) = List.length branches - 1.
Proof.
  unfold GitBranchDelete.choices, GitBranchDelete.others, GitBranchDelete.sorted.
  rewrite length_map.
  assert (H : List.length (sort GitBranchDelete.currentFirst
                             (sort (GitBranchDelete.byName w) branches))
              = List.length branches).
  { apply Permutation_length. rewrite !sort_perm. reflexivity. }
  destruct (sort _ _); simpl in *; lia.
Qed.

(** With exactly one current record, the choices are the non-current
    records in the order of their names. *)
Lemma GitBranchDelete_choices_one_current branches :
  List.length (filter GitBranchDelete.isCurrent branches) = 1 ->
  GitBranchDelete.choices w branches =
    map GitBranchDelete.toChoice
      (filter (fun b => negb (GitBranchDelete.isCurrent b))
         (sort (GitBranchDelete.byName w) branches)).
Proof.
  intros Hone.
  unfold GitBranchDelete.choices, GitBranchDelete.others, GitBranchDelete.sorted.
  rewrite sort_currentFirst.
  assert (H : List.length (filter GitBranchDelete.isCurrent
                             (sort (GitBranchDelete.byName w) branches)) = 1).
  { rewrite <- Hone. apply Permutation_length, filter_perm, sort_perm. }
  destruct (filter GitBranchDelete.isCurrent
              (sort (GitBranchDelete.byName w) branches)) as [|c [|c' l]];
    try discriminate. reflexivity.
Qed.

(** The second script offers exactly the non-current records, whatever
    the listing. *)
Lemma Part000_choices_spec branches :
  Part000.choices w branches =
    map Part000.toChoice
      (filter (fun b => negb (Part000.isCurrent b))
         (sort (Part000.byName w) branches))
  /\ Permutation (map value (Part000.choices w branches))
       (map Part000.name
          (filter (fun b => negb (Part000.isCurrent b)) branches)).
Proof.
  split; [reflexivity|].
  unfold Part000.choices, Part000.otherBranches, Part000.sortedBranches.
  rewrite map_map. simpl.
  apply Permutation_map, filter_perm, sort_perm.
Qed.

End Selector.

(** C4: on a listing of two branches none of which is current (HEAD on
    a branch yet to be born), the Selector of [src/git-branch-delete.ts]
    offers one choice only, whatever the collation: the record sorted
    first is taken for the current one and left out.  The second script
    offers both. *)
Theorem C4_first_record_left_out_when_none_current :
  let a := {| GitBranchDelete.name := js "a";
              GitBranchDelete.lastCommitRelative := js "2 days ago";
              GitBranchDelete.lastCommit := js "2024-01-01";
              GitBranchDelete.isCurrent := false |} in
  let b := {| GitBranchDelete.name := js "b";
              GitBranchDelete.lastCommitRelative := js "3 days ago";
              GitBranchDelete.lastCommit := js "2023-12-31";
              GitBranchDelete.isCurrent := false |} in
  let a' := {| Part000.name := js "a";
               Part000.lastCommitRelative := js "2 days ago";
               Part000.lastCommit := Some (js "2024-01-01");
               Part000.isCurrent := false |} in
  let b' := {| Part000.name := js "b";
               Part000.lastCommitRelative := js "3 days ago";
               Part000.lastCommit := Some (js "2023-12-31");
               Part000.isCurrent := false |} in
  let w := world home (onlyRepoAt home) (ExecOk []) (Answered []) [] (ExecOk []) in
  map GitBranchDelete.name
    (filter (fun r => negb (GitBranchDelete.isCurrent r)) [a; b]) = [js "a"; js "b"]
  /\ map value (GitBranchDelete.choices w [a; b]) = [js "b"]
  /\ (forall w', List.length (GitBranchDelete.choices w' [a; b]) = 1)
  /\ map value (Part000.choices w [a'; b']) = [js "a"; js "b"].
Proof.
  cbv zeta. repeat split; try (vm_compute; reflexivity).
  intros w'. rewrite GitBranchDelete_choices_length. reflexivity.
Qed.

(** ** The Deletion Confirmer *)

Section Confirmer.

Variable w : World.

(** The validation loop of the prompt lets only "yes" and "no" through. *)
Lemma runInput_yes_or_no typed s :
  runInput validateYesNo typed = Answered s -> s = yes \/ s = no.
Proof.
  induction typed as [|[input|] typed IH]; simpl; try discriminate.
  destruct (validateYesNo input) eqn:V; [|exact IH].
  intros H; injection H as <-.
  unfold validateYesNo in V. apply orb_true_iff in V.
  destruct V as [V|V]; apply str_eqb_eq in V; auto.
Qed.

Lemma confirmDeletion_empty h :
  GitBranchDelete.confirmDeletion [] w h = (Return false, h).
Proof. reflexivity. Qed.

(** The run of [confirmDeletion] on a non-empty list: two lines are
    printed, the prompt is shown once, and its result decides. *)
Lemma confirmDeletion_run h names :
  names <> [] ->
  let msg := GitBranchDelete.confirmMessage w (List.length names) in
  let h1 := ConsoleLog (join LF (numbered 0 names))
            :: ConsoleLog (colors w red_bold_underline
                             (js "You have selected these branches to delete:"))
            :: h in
  let r := runInput validateYesNo (keyboard w h1 msg) in
  GitBranchDelete.confirmDeletion names w h =
    (match r with
     | Answered s => Return (str_eqb s yes)
     | Cancelled => Return false
     | Unanswered => Pending
     end,
     PromptInput msg (keyboard w h1 msg) r :: h1).
Proof.
  intros Hne. destruct names as [|n names]; [congruence|].
  cbv zeta.
  unfold GitBranchDelete.confirmDeletion, bind, paint, consoleLog, emit,
    promptInput, ret, pending.
  destruct (runInput validateYesNo _); reflexivity.
Qed.

(** [confirmDeletion] of [src/git-branch-delete.ts] does what the
    Confirmer is specified to do. *)
Lemma confirmDeletion_spec h names :
  names <> [] ->
  exists msg typed h1,
    let r := runInput validateYesNo typed in
    snd (GitBranchDelete.confirmDeletion names w h) = PromptInput msg typed r :: h1
    /\ (fst (GitBranchDelete.confirmDeletion names w h) = Return true
        <-> r = Answered yes)
    /\ (r = Cancelled ->
        fst (GitBranchDelete.confirmDeletion names w h) = Return false)
    /\ (forall e, fst (GitBranchDelete.confirmDeletion names w h) <> Throw e).
Proof.
  intros Hne. rewrite (confirmDeletion_run h Hne). cbv zeta.
  do 3 eexists. split; [reflexivity|]. simpl.
  destruct (runInput validateYesNo _) as [s| |] eqn:R.
  - repeat split; try discriminate.
    + intros H. injection H as H. apply str_eqb_eq in H. congruence.
    + intros H. injection H as ->. reflexivity.
  - repeat split; discriminate.
  - repeat split; discriminate.
Qed.

End Confirmer.

(** C6: the Confirmer of the second script, [askForConfirmation], shows
    its prompt for the empty list too, and a cancelled prompt makes it
    reject instead of returning false; [confirmDeletion] of
    [src/git-branch-delete.ts] returns false in both cases. *)
Theorem C6_askForConfirmation_prompts_always_rejects_on_cancel :
  let w := world home (onlyRepoAt home) (ExecOk []) (Answered []) [Escape]
             (ExecOk []) in
  fst (Part000.askForConfirmation [js "feature"] w []) = Throw []
  /\ existsb isPrompt (snd (Part000.askForConfirmation [] w [])) = true
  /\ fst (GitBranchDelete.confirmDeletion [js "feature"] w []) = Return false
  /\ GitBranchDelete.confirmDeletion [] w [] = (Return false, []).
Proof. cbv zeta. repeat split; vm_compute; reflexivity. Qed.

(** ** The Branch Deleter *)

Section Deleter.

Variable w : World.

Lemma join_quoted names :
  join (js " ") (map (fun b => js "'" ++ b ++ js "'") names) = quotedArgs names.
Proof.
  induction names as [|b [|b' rest] IH]; [reflexivity | reflexivity |].
  change (join (js " ") (map (fun b => js "'" ++ b ++ js "'") (b :: b' :: rest)))
    with ((js "'" ++ b ++ js "'") ++ js " "
          ++ join (js " ") (map (fun b => js "'" ++ b ++ js "'") (b' :: rest))).
  rewrite IH.
  change (quotedArgs (b :: b' :: rest))
    with (js "'" ++ b ++ js "' " ++ quotedArgs (b' :: rest)).
  rewrite <- !app_assoc. reflexivity.
Qed.

Lemma deleteBranches_run h names :
  names <> [] ->
  let cmd := GitBranchDelete.deleteCmd names in
  GitBranchDelete.deleteBranches names w h =
    match exec w h cmd with
    | ExecOk out =>
        (Return tt,
         ConsoleLog (colors w green (js "All selected branches deleted."))
           :: ConsoleLog out :: ExecDone cmd (ExecOk out) :: ExecStart cmd :: h)
    | ExecErr e =>
        (Throw (js "Failed to delete branches: " ++ e),
         ExecDone cmd (ExecErr e) :: ExecStart cmd :: h)
    end.
Proof.
  intros Hne. destruct names as [|n names]; [congruence|]. cbv zeta.
  unfold GitBranchDelete.deleteBranches, tryCatch, bind, execAsync, paint,
    consoleLog, emit, throw.
  destruct (exec w h _); reflexivity.
Qed.

End Deleter.

(** C10: for a non-empty list, [deleteBranches] of
    [src/git-branch-delete.ts] starts exactly one command, whether it
    succeeds or fails: ["git branch -D "] followed by the names in the
    order of the list, each in single quotes, one space apart. *)
Theorem C10_one_batched_force_delete (w : World) (h : history)
    (branches : list jsstring) :
  branches <> [] ->
  exists evs,
    snd (GitBranchDelete.deleteBranches branches w h) = evs ++ h
    /\ started evs = [js "git branch -D " ++ quotedArgs branches].
Proof.
  intros Hne. rewrite (deleteBranches_run w h Hne). cbv zeta.
  unfold GitBranchDelete.deleteCmd. rewrite join_quoted.
  destruct (exec w h _) as [out|e].
  - eexists [_; _; _; _]. split; reflexivity.
  - eexists [_; _]. split; reflexivity.
Qed.

Lemma C10_witness :
  exists evs,
    snd (GitBranchDelete.deleteBranches [js "feature-a"; js "it's"]
           (world home (onlyRepoAt home) (ExecOk []) (Answered []) []
              (ExecErr (js "not found"))) [])
      = evs ++ []
    /\ started evs = [js "git branch -D 'feature-a' 'it's'"].
Proof.
  apply (C10_one_batched_force_delete
           (world home (onlyRepoAt home) (ExecOk []) (Answered []) []
              (ExecErr (js "not found"))) []
           (branches := [js "feature-a"; js "it's"])).
  discriminate.
Defined.

(** ** Histories *)

(** Finds the events by which the history of the goal has grown. *)
Ltac grown :=
  first [ exists []; split; [reflexivity|]
        | eexists [_]; split; [reflexivity|]
        | eexists [_; _]; split; [reflexivity|]
        | eexists [_; _; _]; split; [reflexivity|]
        | eexists [_; _; _; _]; split; [reflexivity|] ].

Section Histories.

Lemma started_app a b : started (a ++ b) = started b ++ started a.
Proof.
  induction a as [|e a IH]; simpl; [rewrite app_nil_r; reflexivity|].
  destruct e; try exact IH. rewrite IH, app_assoc. reflexivity.
Qed.

Lemma started_In cmd h : In (ExecStart cmd) h <-> In cmd (started h).
Proof.
  induction h as [|e h IH]; simpl; [tauto|].
  destruct e; try (rewrite <- IH; split; [intros [H|H]; [discriminate|exact H] | auto]).
  rewrite in_app_iff, <- IH. simpl. split.
  - intros [H|H]; [injection H as ->; auto | auto].
  - intros [H|[->|[]]]; auto.
Qed.

Lemma quiet_started evs : existsb isExec evs = false -> started evs = [].
Proof.
  induction evs as [|e evs IH]; simpl; [reflexivity|].
  destruct e; simpl; try discriminate; exact IH.
Qed.


(** An event that is not in the old part of a history lies in the part
    added since. *)
Lemma split_in_new (new old later earlier : history) e :
  new ++ old = later ++ e :: earlier ->
  ~ In e old ->
  exists mid, new = later ++ e :: mid /\ earlier = mid ++ old.
Proof.
  revert later. induction new as [|x new IH]; intros later H Hnot.
  - simpl in H. exfalso. apply Hnot. rewrite H. apply in_elt.
  - destruct later as [|y later]; simpl in H; injection H as -> H.
    + exists new. split; [reflexivity | symmetry; exact H].
    + destruct (IH later H Hnot) as (mid & -> & ->).
      exists mid. split; reflexivity.
Qed.

Lemma started_nil_cons x evs : started (x :: evs) = [] -> started evs = [].
Proof.
  destruct x; simpl; auto.
  intros H. apply app_eq_nil in H. destruct H; discriminate.
Qed.

(** ... and if a command was started last in that part, it is that one. *)
Lemma the_only_start (evs old later earlier : history) d cmd :
  started evs = [] ->
  evs ++ ExecStart d :: old = later ++ ExecStart cmd :: earlier ->
  ~ In (ExecStart cmd) old ->
  later = evs /\ cmd = d /\ earlier = old.
Proof.
  intros Hq H Hnot.
  change (evs ++ ExecStart d :: old) with (evs ++ [ExecStart d] ++ old) in H.
  rewrite app_assoc in H.
  destruct (@split_in_new _ _ _ _ _ H Hnot) as (mid & Hnew & ->).
  clear H. revert later Hnew.
  induction evs as [|x evs IH]; intros later Hnew.
  - destruct later as [|y later]; simpl in Hnew.
    + injection Hnew as Hd Hmid. subst. auto.
    + injection Hnew as _ Hnew. destruct later; discriminate.
  - destruct later as [|y later]; simpl in Hnew; injection Hnew as Hxy Hnew.
    + subst x. simpl in Hq. apply app_eq_nil in Hq. destruct Hq; discriminate.
    + subst y. apply started_nil_cons in Hq.
      destruct (IH Hq later Hnew) as (-> & -> & E). auto.
Qed.

Lemma deleteFree_no_position h later cmd earlier :
  deleteFree h -> h = later ++ ExecStart cmd :: earlier ->
  isDeleteCmd cmd = true -> False.
Proof.
  intros Hfree -> Hdel.
  rewrite (Hfree cmd) in Hdel; [discriminate|].
  apply started_In, in_elt.
Qed.

Lemma delete_position evs old later earlier d cmd :
  started evs = [] -> deleteFree old ->
  evs ++ ExecStart d :: old = later ++ ExecStart cmd :: earlier ->
  isDeleteCmd cmd = true ->
  cmd = d /\ earlier = old.
Proof.
  intros Hq Hfree H Hdel.
  destruct (@the_only_start evs old later earlier d cmd Hq H) as (_ & -> & ->);
    [|auto].
  intros Hin. apply started_In, Hfree in Hin. congruence.
Qed.

End Histories.

(** ** The Orchestrator *)

Section Orchestrator.

Variable w : World.

Lemma GitBranchDelete_parseBranches_total stdout :
  exists branches, GitBranchDelete.parseBranches stdout = Some branches.
Proof.
  unfold GitBranchDelete.parseBranches.
  destruct (mapM_Some GitBranchDelete.parseLine (split LF (trim stdout)))
    as [l ->]; [intros; apply GitBranchDelete_parseLine_total | eauto].
Qed.

Lemma Part000_parseBranches_total stdout :
  exists branches, Part000.parseBranches stdout = Some branches.
Proof.
  unfold Part000.parseBranches.
  destruct (mapM_Some Part000.parseLine (split LF stdout))
    as [l ->]; [intros; apply Part000_parseLine_total | eauto].
Qed.

(** The Lister: one command, and a listing or an error. *)
Lemma getGitBranches_run h :
  GitBranchDelete.getGitBranches w h =
    match exec w h GitBranchDelete.listCmd with
    | ExecOk out =>
        (match GitBranchDelete.parseBranches out with
         | Some branches => Return branches
         | None => Throw (js "Failed to get git branches: " ++ GitBranchDelete.typeError)
         end,
         ExecDone GitBranchDelete.listCmd (ExecOk out)
           :: ExecStart GitBranchDelete.listCmd :: h)
    | ExecErr e =>
        (Throw (js "Failed to get git branches: " ++ e),
         ExecDone GitBranchDelete.listCmd (ExecErr e)
           :: ExecStart GitBranchDelete.listCmd :: h)
    end.
Proof.
  unfold GitBranchDelete.getGitBranches, tryCatch, bind, execAsync, ret, throw.
  destruct (exec w h _) as [out|e]; [|reflexivity].
  destruct (GitBranchDelete.parseBranches out); reflexivity.
Qed.

(** The Selector: at most one line, then the prompt. *)
Lemma selectBranchNames_run branches h :
  exists h0,
    (h0 = h \/ exists line, h0 = ConsoleLog line :: h)
    /\ GitBranchDelete.selectBranchNames branches w h =
       let cs := GitBranchDelete.choices w branches in
       match multiselect w h0 cs with
       | Answered names =>
           (Return names, PromptMultiselect cs (Answered names) :: h0)
       | Cancelled =>
           (Exit 0%Z,
            ProcessExit 0
              :: ConsoleLog (colors w blue (js "Exiting without deleting any branches."))
              :: PromptMultiselect cs Cancelled :: h0)
       | Unanswered => (Pending, PromptMultiselect cs Unanswered :: h0)
       end.
Proof.
  unfold GitBranchDelete.selectBranchNames, bind, paint, consoleLog, emit, ret,
    promptMultiselect, processExit, pending.
  destruct (GitBranchDelete.sorted w branches) as [|current rest].
  - exists h. split; [auto|]. cbv zeta.
    destruct (multiselect w h _); reflexivity.
  - destruct (GitBranchDelete.isCurrent current).
    + match goal with
      | |- context [multiselect w (ConsoleLog ?l :: h)] =>
          exists (ConsoleLog l :: h)
      end.
      split; [right; eauto|]. cbv zeta.
      destruct (multiselect w _ _); reflexivity.
    + exists h. split; [auto|]. cbv zeta.
      destruct (multiselect w h _); reflexivity.
Qed.

Lemma main_run :
  GitBranchDelete.run w =
    if negb (located w)
    then (Return tt,
          [ConsoleLog (colors w blue
             (js "Not a Git repository. Please navigate to a directory with a .git folder."))])
    else
      match GitBranchDelete.getGitBranches w [] with
      | (Return branches, h) =>
          if GitBranchDelete.soleCurrent branches
          then (Return tt,
                ConsoleLog (colors w blue
                  (js "Only one branch (current) exists. Nothing to do.")) :: h)
          else
            match GitBranchDelete.selectBranchNames branches w h with
            | (Return [], h1) => (Return tt, h1)
            | (Return selected, h1) =>
                match GitBranchDelete.confirmDeletion selected w h1 with
                | (Return true, h2) =>
                    match GitBranchDelete.deleteBranches selected w h2 with
                    | (Throw e, h3) => (Exit 1%Z, reportError w e h3)
                    | r => r
                    end
                | (Return false, h2) =>
                    (Return tt,
                     ConsoleLog (colors w blue (js "No branches deleted.")) :: h2)
                | (Throw e, h2) => (Exit 1%Z, reportError w e h2)
                | (Exit c, h2) => (Exit c, h2)
                | (Pending, h2) => (Pending, h2)
                end
            | (Throw e, h1) => (Exit 1%Z, reportError w e h1)
            | (Exit c, h1) => (Exit c, h1)
            | (Pending, h1) => (Pending, h1)
            end
      | (Throw e, h) => (Exit 1%Z, reportError w e h)
      | (Exit c, h) => (Exit c, h)
      | (Pending, h) => (Pending, h)
      end.
Proof.
  cbv [GitBranchDelete.run GitBranchDelete.main tryCatch bind
       GitBranchDelete.findGitRoot paint consoleLog consoleError emit ret
       processExit located reportError negb].
  destruct (GitBranchDelete.findGitRootFrom _ _); [|reflexivity].
  destruct (GitBranchDelete.getGitBranches w []) as [[branches|e|c|] h];
    try reflexivity.
  destruct (GitBranchDelete.soleCurrent branches); [reflexivity|].
  destruct (GitBranchDelete.selectBranchNames branches w h)
    as [[[|s selected]|e|c|] h1]; try reflexivity.
  destruct (GitBranchDelete.confirmDeletion (s :: selected) w h1)
    as [[[|]|e|c|] h2]; reflexivity.
Qed.

(** What the components of [src/git-branch-delete.ts] can end with. *)
Lemma getGitBranches_outcome h o h' :
  GitBranchDelete.getGitBranches w h = (o, h') ->
  (exists branches, o = Return branches) \/ (exists e, o = Throw e).
Proof.
  rewrite getGitBranches_run.
  destruct (exec w h _) as [out|e].
  - destruct (GitBranchDelete.parseBranches out);
      intros H; injection H as <- _; eauto.
  - intros H; injection H as <- _; eauto.
Qed.

Lemma selectBranchNames_outcome branches h o h1 :
  GitBranchDelete.selectBranchNames branches w h = (o, h1) ->
  (exists selected, o = Return selected) \/ o = Exit 0%Z \/ o = Pending.
Proof.
  destruct (selectBranchNames_run branches h) as (h0 & _ & ->). cbv zeta.
  destruct (multiselect w h0 _); intros H; injection H as <- _; eauto.
Qed.

Lemma confirmDeletion_outcome selected h o h2 :
  GitBranchDelete.confirmDeletion selected w h = (o, h2) ->
  (exists b, o = Return b) \/ o = Pending.
Proof.
  destruct selected as [|s selected].
  - rewrite confirmDeletion_empty. intros H; injection H as <- _; eauto.
  - rewrite confirmDeletion_run by discriminate. cbv zeta.
    destruct (runInput _ _); intros H; injection H as <- _; eauto.
Qed.

Lemma deleteBranches_outcome selected h o h3 :
  GitBranchDelete.deleteBranches selected w h = (o, h3) ->
  o = Return tt \/ exists e, o = Throw e.
Proof.
  destruct selected as [|s selected].
  - intros H; injection H as <- _; eauto.
  - rewrite deleteBranches_run by discriminate. cbv zeta.
    destruct (exec w h _); intros H; injection H as <- _; eauto.
Qed.

(** Every run of [src/git-branch-delete.ts] stops in one of the states
    of the Orchestrator. *)
Lemma run_ends : exists t, ends w t (GitBranchDelete.run w).
Proof.
  rewrite main_run.
  destruct (located w) eqn:L; simpl negb; cbv iota.
  2: eexists; apply ends_NotARepository; exact L.
  destruct (GitBranchDelete.getGitBranches w []) as [o h] eqn:G.
  destruct (getGitBranches_outcome _ G) as [[branches ->]|[e ->]].
  2: eexists; eapply ends_ListFailed; eauto.
  destruct (GitBranchDelete.soleCurrent branches) eqn:Sole.
  { destruct branches as [|b [|b' rest]]; try discriminate.
    eexists; eapply ends_NothingToDo; eauto. }
  destruct (GitBranchDelete.selectBranchNames branches w h) as [o1 h1] eqn:Sel.
  destruct (selectBranchNames_outcome _ _ Sel) as [[selected ->]|[->| ->]].
  2: eexists; eapply ends_SelectionCancelled; eauto.
  2: eexists; eapply ends_SelectionPending; eauto.
  destruct selected as [|s selected].
  { eexists; eapply ends_NothingSelected; eauto. }
  destruct (GitBranchDelete.confirmDeletion (s :: selected) w h1)
    as [o2 h2] eqn:Conf.
  destruct (confirmDeletion_outcome _ _ Conf) as [[[|] ->]| ->].
  2: eexists; eapply ends_Declined; eauto; discriminate.
  2: eexists; eapply ends_ConfirmationPending; eauto; discriminate.
  destruct (GitBranchDelete.deleteBranches (s :: selected) w h2)
    as [o3 h3] eqn:Del.
  destruct (deleteBranches_outcome _ _ Del) as [->|[e ->]].
  - eexists; eapply ends_Deleted; eauto; discriminate.
  - eexists; eapply ends_DeletionFailed; eauto; discriminate.
Qed.

(** How the components of [src/git-branch-delete.ts] extend the history. *)
Lemma getGitBranches_history h o h' :
  GitBranchDelete.getGitBranches w h = (o, h') ->
  exists r,
    h' = ExecDone GitBranchDelete.listCmd r :: ExecStart GitBranchDelete.listCmd :: h
    /\ isExecFailure (ExecDone GitBranchDelete.listCmd r)
       = match o with Return _ => false | _ => true end.
Proof.
  rewrite getGitBranches_run.
  destruct (exec w h _) as [out|e].
  - destruct (GitBranchDelete_parseBranches_total out) as [branches ->].
    intros H; injection H as <- <-. eauto.
  - intros H; injection H as <- <-. eauto.
Qed.

Lemma selectBranchNames_history branches h o h1 :
  GitBranchDelete.selectBranchNames branches w h = (o, h1) ->
  exists evs,
    h1 = evs ++ h /\ existsb isExec evs = false
    /\ (forall selected, o = Return selected ->
        exists h0,
          h1 = PromptMultiselect (GitBranchDelete.choices w branches)
                 (Answered selected) :: h0).
Proof.
  destruct (selectBranchNames_run branches h) as (h0 & Hh0 & ->). cbv zeta.
  destruct (multiselect w h0 _) as [names| |]; intros H; injection H as <- <-;
    destruct Hh0 as [->|[line ->]];
    (grown; split; [reflexivity|]);
    intros sel Hsel; try discriminate; injection Hsel as <-; eauto.
Qed.

Lemma confirmDeletion_history selected h o h2 :
  GitBranchDelete.confirmDeletion selected w h = (o, h2) ->
  exists evs,
    h2 = evs ++ h /\ existsb isExec evs = false
    /\ (o = Return true ->
        exists msg typed h', h2 = PromptInput msg typed (Answered yes) :: h').
Proof.
  destruct selected as [|s selected].
  - rewrite confirmDeletion_empty. intros H; injection H as <- <-.
    exists []. repeat split. discriminate.
  - rewrite confirmDeletion_run by discriminate. cbv zeta.
    destruct (runInput _ _) as [answer| |] eqn:R; intros H; injection H as <- <-;
      (grown; split; [reflexivity|]); try discriminate.
    intros Hyes. injection Hyes as Hyes. apply str_eqb_eq in Hyes. subst answer.
    eauto.
Qed.

Lemma deleteBranches_history selected h o h3 :
  selected <> [] ->
  GitBranchDelete.deleteBranches selected w h = (o, h3) ->
  exists evs r,
    h3 = evs ++ ExecDone (GitBranchDelete.deleteCmd selected) r
               :: ExecStart (GitBranchDelete.deleteCmd selected) :: h
    /\ existsb isExec evs = false
    /\ isExecFailure (ExecDone (GitBranchDelete.deleteCmd selected) r)
       = match o with Throw _ => true | _ => false end.
Proof.
  intros Hne. rewrite deleteBranches_run by exact Hne. cbv zeta.
  destruct (exec w h _) as [out|e]; intros H; injection H as <- <-.
  - eexists [_; _], _. repeat split.
  - eexists [], _. repeat split.
Qed.

Lemma listCmd_not_delete : isDeleteCmd GitBranchDelete.listCmd = false.
Proof. reflexivity. Qed.

Lemma only_listCmd_deleteFree h :
  started h = [GitBranchDelete.listCmd] -> deleteFree h.
Proof.
  intros E cmd Hin. rewrite E in Hin. destruct Hin as [<-|[]].
  apply listCmd_not_delete.
Qed.

(** The histories of the stages, spelled out. *)
Ltac stage_histories :=
  repeat match goal with
    | G : GitBranchDelete.getGitBranches _ [] = _ |- _ =>
        let r := fresh "r" in let F := fresh "Failed" in
        destruct (getGitBranches_history _ G) as (r & -> & F); clear G
    | S : GitBranchDelete.selectBranchNames _ _ _ = _ |- _ =>
        let e := fresh "sel" in let Q := fresh "Q" in let A := fresh "Asked" in
        destruct (selectBranchNames_history _ _ S) as (e & -> & Q & A); clear S
    | N : ?selected <> [],
      D : GitBranchDelete.deleteBranches ?selected _ _ = _ |- _ =>
        let e := fresh "del" in let r := fresh "r" in
        let Q := fresh "Q" in let F := fresh "Failed" in
        destruct (@deleteBranches_history _ _ _ _ N D) as (e & r & -> & Q & F); clear D
    end.

Ltac only_listed :=
  apply only_listCmd_deleteFree; unfold reportError;
  cbn [started app]; repeat rewrite started_app;
  repeat match goal with
    | Q : existsb isExec ?e = false |- context [started ?e] =>
        rewrite (quiet_started e Q)
    end;
  reflexivity.

(** In [src/git-branch-delete.ts] a force-delete is started only at the
    moment the Confirmer has returned true for the selected names. *)
Lemma ends_delete_after_confirmation t res later cmd earlier :
  ends w t res ->
  snd res = later ++ ExecStart cmd :: earlier ->
  isDeleteCmd cmd = true ->
  exists selected h1,
    GitBranchDelete.confirmDeletion selected w h1 = (Return true, earlier)
    /\ cmd = GitBranchDelete.deleteCmd selected
    /\ (exists cs h0, h1 = PromptMultiselect cs (Answered selected) :: h0)
    /\ (exists msg typed h', earlier = PromptInput msg typed (Answered yes) :: h').
Proof.
  intros E Hpos Hdel.
  assert (Hfree : deleteFree (snd res) -> False).
  { intros Hfree.
    exact (@deleteFree_no_position _ later cmd earlier Hfree Hpos Hdel). }
  destruct E as
    [ L | e h L G | b h L G Cur | branches h h1 L G Sole Sel
    | branches h h1 L G Sole Sel | branches h h1 L G Sole Sel
    | branches selected h h1 h2 L G Sole Sel Ne Conf
    | branches selected h h1 h2 L G Sole Sel Ne Conf
    | branches selected h h1 h2 h3 L G Sole Sel Ne Conf Del
    | branches selected h h1 h2 h3 e L G Sole Sel Ne Conf Del ];
    simpl snd in *.
  - exfalso. apply Hfree. intros c [].
  - exfalso. apply Hfree. stage_histories. only_listed.
  - exfalso. apply Hfree. stage_histories. only_listed.
  - exfalso. apply Hfree. stage_histories. only_listed.
  - exfalso. apply Hfree. stage_histories. only_listed.
  - exfalso. apply Hfree. stage_histories. only_listed.
  - exfalso. apply Hfree.
    destruct (confirmDeletion_history _ _ Conf) as (e2 & -> & Q2 & _).
    stage_histories. only_listed.
  - exfalso. apply Hfree.
    destruct (confirmDeletion_history _ _ Conf) as (e2 & -> & Q2 & _).
    stage_histories. only_listed.
  - clear Hfree.
    destruct (@deleteBranches_history _ _ _ _ Ne Del) as (e3 & r3 & -> & Q3 & _).
    destruct (selectBranchNames_history _ _ Sel) as (e1 & E1 & Q1 & A1).
    destruct (A1 _ eq_refl) as [h0 Hh0].
    destruct (confirmDeletion_history _ _ Conf) as (e2 & E2 & Q2 & Hyes).
    destruct (@delete_position
                (e3 ++ [ExecDone (GitBranchDelete.deleteCmd selected) r3])
                h2 later earlier (GitBranchDelete.deleteCmd selected) cmd)
      as [-> ->]; auto.
    + rewrite started_app, (quiet_started _ Q3). reflexivity.
    + subst h2 h1. stage_histories. only_listed.
    + rewrite <- app_assoc. exact Hpos.
    + exists selected, h1. repeat split; eauto.
  - clear Hfree.
    destruct (@deleteBranches_history _ _ _ _ Ne Del) as (e3 & r3 & -> & Q3 & _).
    destruct (selectBranchNames_history _ _ Sel) as (e1 & E1 & Q1 & A1).
    destruct (A1 _ eq_refl) as [h0 Hh0].
    destruct (confirmDeletion_history _ _ Conf) as (e2 & E2 & Q2 & Hyes).
    unfold reportError in Hpos.
    destruct (@delete_position
                (ProcessExit 1 :: ConsoleError (colors w red (js "Error: " ++ e))
                   :: e3 ++ [ExecDone (GitBranchDelete.deleteCmd selected) r3])
                h2 later earlier (GitBranchDelete.deleteCmd selected) cmd)
      as [-> ->]; auto.
    + cbn [started]. rewrite started_app, (quiet_started _ Q3). reflexivity.
    + subst h2 h1. stage_histories. only_listed.
    + simpl. rewrite <- app_assoc. exact Hpos.
    + exists selected, h1. repeat split; eauto.
Qed.

Lemma GitBranchDelete_delete_after_confirmation later cmd earlier :
  snd (GitBranchDelete.run w) = later ++ ExecStart cmd :: earlier ->
  isDeleteCmd cmd = true ->
  exists selected h1,
    GitBranchDelete.confirmDeletion selected w h1 = (Return true, earlier)
    /\ cmd = GitBranchDelete.deleteCmd selected
    /\ (exists cs h0, h1 = PromptMultiselect cs (Answered selected) :: h0)
    /\ (exists msg typed h', earlier = PromptInput msg typed (Answered yes) :: h').
Proof.
  intros Hpos Hdel. destruct run_ends as [t E].
  eapply ends_delete_after_confirmation; eassumption.
Qed.

(** ... and none is started in a run whose Confirmer returns anything else. *)
Lemma GitBranchDelete_no_delete_unless_confirmed branches h selected h1 o h2 :
  located w = true ->
  GitBranchDelete.getGitBranches w [] = (Return branches, h) ->
  GitBranchDelete.soleCurrent branches = false ->
  GitBranchDelete.selectBranchNames branches w h = (Return selected, h1) ->
  GitBranchDelete.confirmDeletion selected w h1 = (o, h2) ->
  o <> Return true ->
  deleteFree (snd (GitBranchDelete.run w)).
Proof.
  intros L G Sole Sel Conf Hno.
  rewrite main_run, L, G, Sole, Sel. simpl negb. cbv iota.
  destruct (confirmDeletion_history _ _ Conf) as (e2 & -> & Q2 & _).
  destruct selected as [|s selected].
  - simpl snd. stage_histories. only_listed.
  - rewrite Conf.
    destruct o as [[|]|e|c|]; try congruence; simpl snd;
      stage_histories; only_listed.
Qed.



(** The early exit of [src/git-branch-delete.ts]. *)
Lemma GitBranchDelete_nothing_to_do b h :
  located w = true ->
  GitBranchDelete.getGitBranches w [] = (Return [b], h) ->
  GitBranchDelete.isCurrent b = true ->
  GitBranchDelete.run w =
    (Return tt,
     ConsoleLog (colors w blue
       (js "Only one branch (current) exists. Nothing to do.")) :: h)
  /\ existsb isPrompt (snd (GitBranchDelete.run w)) = false
  /\ deleteFree (snd (GitBranchDelete.run w)).
Proof.
  intros L G Cur.
  rewrite main_run, L, G. simpl negb. cbv iota.
  unfold GitBranchDelete.soleCurrent. rewrite Cur.
  split; [reflexivity|]. simpl snd. stage_histories.
  split; [reflexivity | only_listed].
Qed.

End Orchestrator.

(** ** The Orchestrator of the second script *)

Section OrchestratorPart000.

Variable w : World.

Lemma Part000_getGitBranches_run h :
  Part000.getGitBranches w h =
    match exec w h Part000.listCmd with
    | ExecOk out =>
        (match Part000.parseBranches out with
         | Some branches => Return branches
         | None => Throw (js "Cannot read properties of undefined (reading 'localeCompare')")
         end,
         ExecDone Part000.listCmd (ExecOk out) :: ExecStart Part000.listCmd :: h)
    | ExecErr e =>
        (Throw e, ExecDone Part000.listCmd (ExecErr e) :: ExecStart Part000.listCmd :: h)
    end.
Proof.
  unfold Part000.getGitBranches, bind, execAsync, ret, throw.
  destruct (exec w h _) as [out|e]; [|reflexivity].
  destruct (Part000.parseBranches out); reflexivity.
Qed.

Lemma Part000_getGitBranches_history h o h' :
  Part000.getGitBranches w h = (o, h') ->
  exists r,
    h' = ExecDone Part000.listCmd r :: ExecStart Part000.listCmd :: h
    /\ ((exists branches, o = Return branches) \/ (exists e, o = Throw e))
    /\ isExecFailure (ExecDone Part000.listCmd r)
       = match o with Return _ => false | _ => true end.
Proof.
  rewrite Part000_getGitBranches_run.
  destruct (exec w h _) as [out|e].
  - destruct (Part000_parseBranches_total out) as [branches ->].
    intros H; injection H as <- <-. eauto 6.
  - intros H; injection H as <- <-. eauto 6.
Qed.

Lemma Part000_selectBranchNames_run branches h :
  exists h0,
    (h0 = h \/ exists line, h0 = ConsoleLog line :: h)
    /\ Part000.selectBranchNames branches w h =
       let cs := Part000.choices w branches in
       match multiselect w h0 cs with
       | Answered names =>
           (Return names, PromptMultiselect cs (Answered names) :: h0)
       | Cancelled =>
           (Exit 0%Z,
            ProcessExit 0
              :: ConsoleLog (colors w blue (js "Exiting without deleting any branches."))
              :: PromptMultiselect cs Cancelled :: h0)
       | Unanswered => (Pending, PromptMultiselect cs Unanswered :: h0)
       end.
Proof.
  unfold Part000.selectBranchNames, bind, paint, consoleLog, emit, ret,
    promptMultiselect, processExit, pending.
  destruct (find Part000.isCurrent (Part000.sortedBranches w branches))
    as [current|].
  - match goal with
    | |- context [multiselect w (ConsoleLog ?l :: h)] =>
        exists (ConsoleLog l :: h)
    end.
    split; [right; eauto|]. cbv zeta.
    destruct (multiselect w _ _); reflexivity.
  - exists h. split; [auto|]. cbv zeta.
    destruct (multiselect w h _); reflexivity.
Qed.

Lemma Part000_selectBranchNames_history branches h o h1 :
  Part000.selectBranchNames branches w h = (o, h1) ->
  exists evs,
    h1 = evs ++ h /\ existsb isExec evs = false
    /\ ((exists selected, o = Return selected) \/ o = Exit 0%Z \/ o = Pending)
    /\ (forall selected, o = Return selected ->
        exists h0,
          h1 = PromptMultiselect (Part000.choices w branches)
                 (Answered selected) :: h0).
Proof.
  destruct (Part000_selectBranchNames_run branches h) as (h0 & Hh0 & ->). cbv zeta.
  destruct (multiselect w h0 _) as [names| |]; intros H; injection H as <- <-;
    destruct Hh0 as [->|[line ->]];
    (grown; split; [reflexivity|]; split; [eauto|]);
    intros sel Hsel; try discriminate; injection Hsel as <-; eauto.
Qed.

(** The run of [askForConfirmation]: the list may be empty, and a
    cancelled prompt rejects. *)
Lemma askForConfirmation_run h names :
  let msg := Part000.confirmMessage w (List.length names) in
  let h1 := ConsoleLog (join LF (numbered 0 names))
            :: ConsoleLog (colors w red_bold_underline
                             (js "You have selected these branches to delete:"))
            :: h in
  let r := runInput validateYesNo (keyboard w h1 msg) in
  Part000.askForConfirmation names w h =
    (match r with
     | Answered s => Return (str_eqb s yes)
     | Cancelled => Throw []
     | Unanswered => Pending
     end,
     PromptInput msg (keyboard w h1 msg) r :: h1).
Proof.
  cbv zeta.
  unfold Part000.askForConfirmation, bind, paint, consoleLog, emit,
    promptInput, ret, pending, throw.
  destruct (runInput validateYesNo _); reflexivity.
Qed.

Lemma askForConfirmation_history selected h o h2 :
  Part000.askForConfirmation selected w h = (o, h2) ->
  exists evs,
    h2 = evs ++ h /\ existsb isExec evs = false
    /\ ((exists b, o = Return b) \/ o = Throw [] \/ o = Pending)
    /\ (o = Return true ->
        exists msg typed h', h2 = PromptInput msg typed (Answered yes) :: h').
Proof.
  rewrite askForConfirmation_run. cbv zeta.
  destruct (runInput _ _) as [answer| |] eqn:R; intros H; injection H as <- <-;
    (grown; split; [reflexivity|]; split; [eauto|]); try discriminate.
  intros Hyes. injection Hyes as Hyes. apply str_eqb_eq in Hyes. subst answer.
  eauto.
Qed.

(** The Deleter of the second script starts one command for each name
    and nothing else. *)
Lemma startAll_history names h :
  exists evs,
    fst (Part000.startAll w h names) = evs ++ h
    /\ forall cmd, In cmd (started evs) ->
       exists b, In b names /\ cmd = Part000.deleteCmd b.
Proof.
  revert h. induction names as [|b rest IH]; intros h.
  - exists []. split; [reflexivity|]. intros cmd [].
  - cbn [Part000.startAll].
    destruct (IH (ExecStart (Part000.deleteCmd b)
                    :: ConsoleLog (Part000.deleteCmd b) :: h))
      as (evs & E & Hevs).
    destruct (Part000.startAll w _ rest) as [h2 rs]. simpl in E. subst h2.
    exists (evs ++ [ExecStart (Part000.deleteCmd b); ConsoleLog (Part000.deleteCmd b)]).
    split; [simpl; rewrite <- app_assoc; reflexivity|].
    intros cmd Hin. rewrite started_app in Hin. simpl in Hin.
    destruct Hin as [<-|Hin].
    + exists b. split; [left|]; reflexivity.
    + destruct (Hevs cmd Hin) as (b' & Hb' & ->).
      exists b'. split; [right; exact Hb' | reflexivity].
Qed.

Lemma callback_history br h :
  exists evs, Part000.callback br h = evs ++ h /\ started evs = [].
Proof.
  unfold Part000.callback. destruct (snd br); eexists [_; _]; split; reflexivity.
Qed.

Lemma untilSettled_history rs h :
  exists evs,
    snd (fst (Part000.untilSettled w h rs)) = evs ++ h /\ started evs = []
    /\ (fst (fst (Part000.untilSettled w h rs)) = Return tt
        \/ exists e, fst (fst (Part000.untilSettled w h rs)) = Throw e).
Proof.
  revert h. induction rs as [|[b [out|e]] rest IH]; intros h;
    cbn [Part000.untilSettled].
  - eexists [_]. repeat split. auto.
  - destruct (IH (Part000.callback (b, ExecOk out) h)) as (evs & -> & Q & O).
    exists (evs ++ [ConsoleLog out; ExecDone (Part000.deleteCmd b) (ExecOk out)]).
    split; [rewrite <- app_assoc; reflexivity|].
    split; [rewrite started_app, Q; reflexivity | exact O].
  - eexists [_; _]. repeat split. right. eexists. reflexivity.
Qed.

Lemma runLate_history rs h :
  exists evs, Part000.runLate rs h = evs ++ h /\ started evs = [].
Proof.
  unfold Part000.runLate. revert h.
  induction rs as [|br rest IH]; intros h; simpl.
  - exists []. split; reflexivity.
  - destruct (callback_history br h) as (e1 & -> & Q1).
    destruct (IH (e1 ++ h)) as (e2 & -> & Q2).
    exists (e2 ++ e1). split; [rewrite app_assoc; reflexivity|].
    rewrite started_app, Q1, Q2. reflexivity.
Qed.

(** A failed deletion is reported and the run goes on to its normal end. *)
Lemma deleteAndReport_history names h :
  exists evs,
    Part000.deleteAndReport names w h = (Return tt, evs ++ h)
    /\ forall cmd, In cmd (started evs) ->
       exists b, In b names /\ cmd = Part000.deleteCmd b.
Proof.
  unfold Part000.deleteAndReport, Part000.deleteBranches.
  destruct (startAll_history names h) as (e1 & E1 & Hstart).
  destruct (Part000.startAll w h names) as [h1 rs]. simpl in E1. subst h1.
  destruct (untilSettled_history rs (e1 ++ h)) as (e2 & E2 & Q2 & O).
  destruct (Part000.untilSettled w (e1 ++ h) rs) as [[o h2] rest].
  simpl in E2, O. subst h2.
  destruct O as [->|[e ->]].
  - destruct (runLate_history rest (e2 ++ e1 ++ h)) as (e3 & -> & Q3).
    exists (e3 ++ e2 ++ e1). split; [rewrite <- !app_assoc; reflexivity|].
    intros cmd. rewrite !started_app, Q2, Q3, !app_nil_r. apply Hstart.
  - destruct (runLate_history rest
                (ConsoleError (js "An error occurred while deleting branches: " ++ e)
                   :: e2 ++ e1 ++ h)) as (e3 & -> & Q3).
    exists (e3 ++ ConsoleError (js "An error occurred while deleting branches: " ++ e)
               :: e2 ++ e1).
    split; [rewrite <- !app_assoc; simpl; rewrite <- !app_assoc; reflexivity|].
    intros cmd. rewrite started_app. cbn [started].
    rewrite started_app, Q2, Q3, !app_nil_r. apply Hstart.
Qed.

Lemma Part000_main_run :
  Part000.run w =
    if negb (locatedPart000 w)
    then (Return tt,
          [ConsoleLog (colors w blue
             (js "This is not a Git repository. Please go to a directoy with .git directory."))])
    else
      match Part000.getGitBranches w [] with
      | (Return branches, h) =>
          if Part000.soleCurrent branches
          then (Return tt,
                ConsoleLog (colors w blue
                  (js "There is only one branch (the current branch). Nothing to do."))
                  :: h)
          else
            match Part000.selectBranchNames branches w h with
            | (Return [], h1) => (Return tt, h1)
            | (Return selected, h1) =>
                match Part000.askForConfirmation selected w h1 with
                | (Return true, h2) => Part000.deleteAndReport selected w h2
                | (Return false, h2) =>
                    (Return tt, ConsoleLog (js "No branches deleted.") :: h2)
                | (Throw e, h2) => (Throw e, h2)
                | (Exit c, h2) => (Exit c, h2)
                | (Pending, h2) => (Pending, h2)
                end
            | (Throw e, h1) => (Throw e, h1)
            | (Exit c, h1) => (Exit c, h1)
            | (Pending, h1) => (Pending, h1)
            end
      | (Throw e, h) => (Throw e, h)
      | (Exit c, h) => (Exit c, h)
      | (Pending, h) => (Pending, h)
      end.
Proof.
  cbv [Part000.run Part000.main bind Part000.isGitRepository paint consoleLog
       emit ret locatedPart000 negb].
  destruct (Part000.isGitRepositoryFrom _ _); [|reflexivity].
  destruct (Part000.getGitBranches w []) as [[branches|e|c|] h];
    try reflexivity.
  destruct (Part000.soleCurrent branches); [reflexivity|].
  destruct (Part000.selectBranchNames branches w h)
    as [[[|s selected]|e|c|] h1]; try reflexivity.
  destruct (Part000.askForConfirmation (s :: selected) w h1)
    as [[[|]|e|c|] h2]; reflexivity.
Qed.

Lemma Part000_deleteBranches_outcome names h :
  fst (fst (Part000.deleteBranches names w h)) = Return tt
  \/ exists e, fst (fst (Part000.deleteBranches names w h)) = Throw e.
Proof.
  unfold Part000.deleteBranches.
  destruct (Part000.startAll w h names) as [h1 rs].
  destruct (untilSettled_history rs h1) as (_ & _ & _ & O). exact O.
Qed.

(** Every run of the second script stops in one of the states of the
    Orchestrator. *)
Lemma Part000_run_ends : exists t, endsPart000 w t (Part000.run w).
Proof.
  rewrite Part000_main_run.
  destruct (locatedPart000 w) eqn:L; simpl negb; cbv iota.
  2: eexists; apply Part000_NotARepository; exact L.
  destruct (Part000.getGitBranches w []) as [o h] eqn:G.
  destruct (Part000_getGitBranches_history _ G) as (r & _ & [[branches ->]|[e ->]] & _).
  2: eexists; eapply Part000_ListFailed; eauto.
  destruct (Part000.soleCurrent branches) eqn:Sole.
  { destruct branches as [|b [|b' rest]]; try discriminate.
    eexists; eapply Part000_NothingToDo; eauto. }
  destruct (Part000.selectBranchNames branches w h) as [o1 h1] eqn:Sel.
  destruct (Part000_selectBranchNames_history _ _ Sel)
    as (e1 & _ & _ & [[selected ->]|[->| ->]] & _).
  2: eexists; eapply Part000_SelectionCancelled; eauto.
  2: eexists; eapply Part000_SelectionPending; eauto.
  destruct selected as [|s selected].
  { eexists; eapply Part000_NothingSelected; eauto. }
  destruct (Part000.askForConfirmation (s :: selected) w h1)
    as [o2 h2] eqn:Conf.
  destruct (askForConfirmation_history _ _ Conf)
    as (e2 & _ & _ & [[[|] ->]|[->| ->]] & _).
  2: eexists; eapply Part000_Declined; eauto; discriminate.
  2: eexists; eapply Part000_ConfirmationCancelled; eauto; discriminate.
  2: eexists; eapply Part000_ConfirmationPending; eauto; discriminate.
  unfold Part000.deleteAndReport.
  pose proof (Part000_deleteBranches_outcome (s :: selected) h2) as O.
  destruct (Part000.deleteBranches (s :: selected) w h2) as [[o3 h3] rest] eqn:Del.
  simpl in O. destruct O as [->|[e ->]].
  - eexists; eapply Part000_Deleted; eauto; discriminate.
  - eexists; eapply Part000_DeletionFailed; eauto; discriminate.
Qed.

Lemma Part000_listCmd_not_delete : isDeleteCmd Part000.listCmd = false.
Proof. reflexivity. Qed.

Lemma Part000_only_listCmd_deleteFree h :
  started h = [Part000.listCmd] -> deleteFree h.
Proof.
  intros E cmd Hin. rewrite E in Hin. destruct Hin as [<-|[]].
  apply Part000_listCmd_not_delete.
Qed.

Ltac Part000_stage_histories :=
  repeat match goal with
    | G : Part000.getGitBranches _ [] = _ |- _ =>
        let r := fresh "r" in let F := fresh "Failed" in
        destruct (Part000_getGitBranches_history _ G) as (r & -> & _ & F); clear G
    | S : Part000.selectBranchNames _ _ _ = _ |- _ =>
        let e := fresh "sel" in let Q := fresh "Q" in let A := fresh "Asked" in
        destruct (Part000_selectBranchNames_history _ _ S) as (e & -> & Q & _ & A);
        clear S
    | C : Part000.askForConfirmation _ _ _ = _ |- _ =>
        let e := fresh "conf" in let Q := fresh "Q" in let Y := fresh "Yes" in
        destruct (askForConfirmation_history _ _ C) as (e & -> & Q & _ & Y);
        clear C
    end.

Ltac Part000_only_listed :=
  apply Part000_only_listCmd_deleteFree;
  cbn [started app]; repeat rewrite started_app;
  repeat match goal with
    | Q : existsb isExec ?e = false |- context [started ?e] =>
        rewrite (quiet_started e Q)
    end;
  reflexivity.

(** In the second script the force-deletes are started only after the
    Confirmer has returned true for the selected names, one for each of
    them. *)
Lemma Part000_delete_after_confirmation later cmd earlier :
  snd (Part000.run w) = later ++ ExecStart cmd :: earlier ->
  isDeleteCmd cmd = true ->
  exists selected h1 h2 mid,
    Part000.askForConfirmation selected w h1 = (Return true, h2)
    /\ earlier = mid ++ h2
    /\ (exists b, In b selected /\ cmd = Part000.deleteCmd b)
    /\ (exists cs h0, h1 = PromptMultiselect cs (Answered selected) :: h0)
    /\ (exists msg typed h', h2 = PromptInput msg typed (Answered yes) :: h').
Proof.
  intros Hpos Hdel.
  assert (Hfree : deleteFree (snd (Part000.run w)) -> False).
  { intros Hfree.
    exact (@deleteFree_no_position _ later cmd earlier Hfree Hpos Hdel). }
  rewrite Part000_main_run in Hpos, Hfree.
  destruct (locatedPart000 w); simpl negb in *; cbv iota in *.
  2: { exfalso. apply Hfree. intros c []. }
  destruct (Part000.getGitBranches w []) as [o h] eqn:G.
  pose proof (Part000_getGitBranches_history _ G) as (r & Eh & _ & _).
  assert (Fh : deleteFree h) by (subst h; Part000_only_listed).
  destruct o as [branches|e|c|]; try (exfalso; exact (Hfree Fh)).
  destruct (Part000.soleCurrent branches).
  { exfalso. apply Hfree. intros c Hc. apply Fh. exact Hc. }
  destruct (Part000.selectBranchNames branches w h) as [o1 h1] eqn:Sel.
  pose proof (Part000_selectBranchNames_history _ _ Sel) as (e1 & E1 & Q1 & _ & A1).
  assert (Fh1 : deleteFree h1).
  { subst h1. intros c. rewrite started_app, (quiet_started _ Q1), app_nil_r.
    apply Fh. }
  destruct o1 as [[|s selected]|e|c|]; try (exfalso; exact (Hfree Fh1)).
  destruct (Part000.askForConfirmation (s :: selected) w h1) as [o2 h2] eqn:Conf.
  pose proof (askForConfirmation_history _ _ Conf) as (e2 & E2 & Q2 & _ & Yes).
  assert (Fh2 : deleteFree h2).
  { subst h2. intros c. rewrite started_app, (quiet_started _ Q2), app_nil_r.
    apply Fh1. }
  destruct o2 as [[|]|e|c|]; try (exfalso; exact (Hfree Fh2)).
  clear Hfree.
  destruct (deleteAndReport_history (s :: selected) h2) as (e3 & E3 & Hstart).
  rewrite E3 in Hpos. simpl snd in Hpos.
  destruct (@split_in_new e3 h2 later earlier (ExecStart cmd) Hpos)
    as (mid & -> & ->).
  { intros Hin. apply started_In, Fh2 in Hin. congruence. }
  exists (s :: selected), h1, h2, mid.
  split; [exact Conf|]. split; [reflexivity|].
  split.
  { apply Hstart. apply started_In, in_elt. }
  destruct (A1 _ eq_refl) as [h0 Hh0]. split; eauto.
Qed.

(** ... and none is started in a run whose Confirmer returns anything else. *)
Lemma Part000_no_delete_unless_confirmed branches h selected h1 o h2 :
  locatedPart000 w = true ->
  Part000.getGitBranches w [] = (Return branches, h) ->
  Part000.soleCurrent branches = false ->
  Part000.selectBranchNames branches w h = (Return selected, h1) ->
  Part000.askForConfirmation selected w h1 = (o, h2) ->
  o <> Return true ->
  deleteFree (snd (Part000.run w)).
Proof.
  intros L G Sole Sel Conf Hno.
  rewrite Part000_main_run, L, G, Sole, Sel. simpl negb. cbv iota.
  destruct selected as [|s selected].
  - simpl snd. Part000_stage_histories. Part000_only_listed.
  - rewrite Conf.
    destruct o as [[|]|e|c|]; try congruence; simpl snd;
      Part000_stage_histories; Part000_only_listed.
Qed.

(** The early exit of the second script. *)
Lemma Part000_nothing_to_do b h :
  locatedPart000 w = true ->
  Part000.getGitBranches w [] = (Return [b], h) ->
  Part000.isCurrent b = true ->
  Part000.run w =
    (Return tt,
     ConsoleLog (colors w blue
       (js "There is only one branch (the current branch). Nothing to do.")) :: h)
  /\ existsb isPrompt (snd (Part000.run w)) = false
  /\ deleteFree (snd (Part000.run w)).
Proof.
  intros L G Cur.
  rewrite Part000_main_run, L, G. simpl negb. cbv iota.
  unfold Part000.soleCurrent. rewrite Cur.
  split; [reflexivity|]. simpl snd. Part000_stage_histories.
  split; [reflexivity | Part000_only_listed].
Qed.

(** Whenever a deletion fails, the second script ends normally. *)
Lemma Part000_deletion_failure_exits_0 res :
  endsPart000 w DeletionFailed res -> exitCode (fst res) = Some 0%Z.
Proof. intros E. inversion E. reflexivity. Qed.

End OrchestratorPart000.

(** C2: in every run, a force-delete command is started only after the
    Confirmer has returned true for the names the Selector returned: the
    history up to the command is (in [src/git-branch-delete.ts]) or ends
    with (in the second script, which starts one command for each name)
    the history at that return, and the command names the selected
    branches.  In a run whose Confirmer returns anything but true no
    force-delete is started at all. *)
Theorem C2_no_delete_before_confirmation (w : World) :
  (forall later cmd earlier,
     snd (GitBranchDelete.run w) = later ++ ExecStart cmd :: earlier ->
     isDeleteCmd cmd = true ->
     exists selected h1,
       GitBranchDelete.confirmDeletion selected w h1 = (Return true, earlier)
       /\ cmd = GitBranchDelete.deleteCmd selected
       /\ (exists cs h0, h1 = PromptMultiselect cs (Answered selected) :: h0)
       /\ (exists msg typed h',
             earlier = PromptInput msg typed (Answered yes) :: h'))
  /\ (forall branches h selected h1 o h2,
        located w = true ->
        GitBranchDelete.getGitBranches w [] = (Return branches, h) ->
        GitBranchDelete.soleCurrent branches = false ->
        GitBranchDelete.selectBranchNames branches w h = (Return selected, h1) ->
        GitBranchDelete.confirmDeletion selected w h1 = (o, h2) ->
        o <> Return true ->
        deleteFree (snd (GitBranchDelete.run w)))
  /\ (forall later cmd earlier,
        snd (Part000.run w) = later ++ ExecStart cmd :: earlier ->
        isDeleteCmd cmd = true ->
        exists selected h1 h2 mid,
          Part000.askForConfirmation selected w h1 = (Return true, h2)
          /\ earlier = mid ++ h2
          /\ (exists b, In b selected /\ cmd = Part000.deleteCmd b)
          /\ (exists cs h0, h1 = PromptMultiselect cs (Answered selected) :: h0)
          /\ (exists msg typed h',
                h2 = PromptInput msg typed (Answered yes) :: h'))
  /\ (forall branches h selected h1 o h2,
        locatedPart000 w = true ->
        Part000.getGitBranches w [] = (Return branches, h) ->
        Part000.soleCurrent branches = false ->
        Part000.selectBranchNames branches w h = (Return selected, h1) ->
        Part000.askForConfirmation selected w h1 = (o, h2) ->
        o <> Return true ->
        deleteFree (snd (Part000.run w))).
Proof.
  split; [|split; [|split]].
  - apply GitBranchDelete_delete_after_confirmation.
  - apply GitBranchDelete_no_delete_unless_confirmed.
  - apply Part000_delete_after_confirmation.
  - apply Part000_no_delete_unless_confirmed.
Qed.

Lemma C2_witness :
  (let w := session threeBranches (Submit yes) (ExecOk (js "Deleted")) in
   exists selected h1,
     GitBranchDelete.confirmDeletion selected w h1
       = (Return true, skipn 4 (snd (GitBranchDelete.run w)))
     /\ js "git branch -D 'feature-a' 'feature-b'"
        = GitBranchDelete.deleteCmd selected
     /\ (exists cs h0, h1 = PromptMultiselect cs (Answered selected) :: h0)
     /\ (exists msg typed h',
           skipn 4 (snd (GitBranchDelete.run w))
           = PromptInput msg typed (Answered yes) :: h'))
  /\ deleteFree
       (snd (GitBranchDelete.run
               (session threeBranches (Submit no) (ExecOk (js "Deleted")))))
  /\ (let w := session threeRefs (Submit yes) (ExecErr (js "not found")) in
      exists selected h1 h2 mid,
        Part000.askForConfirmation selected w h1 = (Return true, h2)
        /\ skipn 6 (snd (Part000.run w)) = mid ++ h2
        /\ (exists b, In b selected
                      /\ js "git branch -D 'feature-b'" = Part000.deleteCmd b)
        /\ (exists cs h0, h1 = PromptMultiselect cs (Answered selected) :: h0)
        /\ (exists msg typed h',
              h2 = PromptInput msg typed (Answered yes) :: h'))
  /\ deleteFree
       (snd (Part000.run (session threeRefs Escape (ExecOk (js "Deleted"))))).
Proof.
  split; [|split; [|split]].
  - cbv zeta.
    apply (proj1 (C2_no_delete_before_confirmation
                    (session threeBranches (Submit yes) (ExecOk (js "Deleted"))))
             (firstn 3 (snd (GitBranchDelete.run
                (session threeBranches (Submit yes) (ExecOk (js "Deleted"))))))).
    + vm_compute. reflexivity.
    + vm_compute. reflexivity.
  - eapply (proj1 (proj2 (C2_no_delete_before_confirmation
                    (session threeBranches (Submit no) (ExecOk (js "Deleted")))))).
    + vm_compute. reflexivity.
    + vm_compute. reflexivity.
    + vm_compute. reflexivity.
    + vm_compute. reflexivity.
    + vm_compute. reflexivity.
    + discriminate.
  - cbv zeta.
    apply (proj1 (proj2 (proj2 (C2_no_delete_before_confirmation
                    (session threeRefs (Submit yes) (ExecErr (js "not found"))))))
             (firstn 5 (snd (Part000.run
                (session threeRefs (Submit yes) (ExecErr (js "not found"))))))).
    + vm_compute. reflexivity.
    + vm_compute. reflexivity.
  - eapply (proj2 (proj2 (proj2 (C2_no_delete_before_confirmation
                    (session threeRefs Escape (ExecOk (js "Deleted"))))))).
    + vm_compute. reflexivity.
    + vm_compute. reflexivity.
    + vm_compute. reflexivity.
    + vm_compute. reflexivity.
    + vm_compute. reflexivity.
    + discriminate.
Defined.

(** C3: in the second script a failed deletion is caught and printed, and
    the run then ends normally, that is with exit code 0 although a
    DeletionError came from the version-control call; and the
    cancellation of the confirmation prompt ends it by an unhandled
    rejection.  [src/git-branch-delete.ts] exits with 1 and with 0 on
    the same sessions. *)
Theorem C3_Part000_exit_codes :
  let failing := session threeRefs (Submit yes) (ExecErr (js "not found")) in
  let cancelled := session threeRefs Escape (ExecOk (js "Deleted")) in
  (existsb isExecFailure (snd (Part000.run failing)) = true
   /\ fst (Part000.run failing) = Return tt
   /\ exitCode (fst (Part000.run failing)) = Some 0%Z)
  /\ (existsb isExecFailure (snd (Part000.run cancelled)) = false
      /\ fst (Part000.run cancelled) = Throw []
      /\ exitCode (fst (Part000.run cancelled)) = Some 1%Z)
  /\ exitCode (fst (GitBranchDelete.run
                      (session threeBranches (Submit yes) (ExecErr (js "not found")))))
     = Some 1%Z
  /\ exitCode (fst (GitBranchDelete.run
                      (session threeBranches Escape (ExecOk (js "Deleted")))))
     = Some 0%Z.
Proof. cbv zeta. repeat split; vm_compute; reflexivity. Qed.

(** C7: when the listing is a single record and that record is the
    current branch, the run prints the nothing-to-do line after the
    Lister's history and ends there: no prompt has been shown and no
    force-delete started.  For both implementations. *)
Theorem C7_sole_current_branch_early_exit (w : World) :
  (forall b h,
     located w = true ->
     GitBranchDelete.getGitBranches w [] = (Return [b], h) ->
     GitBranchDelete.isCurrent b = true ->
     GitBranchDelete.run w =
       (Return tt,
        ConsoleLog (colors w blue
          (js "Only one branch (current) exists. Nothing to do.")) :: h)
     /\ existsb isPrompt (snd (GitBranchDelete.run w)) = false
     /\ deleteFree (snd (GitBranchDelete.run w)))
  /\ (forall b h,
        locatedPart000 w = true ->
        Part000.getGitBranches w [] = (Return [b], h) ->
        Part000.isCurrent b = true ->
        Part000.run w =
          (Return tt,
           ConsoleLog (colors w blue
             (js "There is only one branch (the current branch). Nothing to do."))
             :: h)
        /\ existsb isPrompt (snd (Part000.run w)) = false
        /\ deleteFree (snd (Part000.run w))).
Proof.
  split.
  - apply GitBranchDelete_nothing_to_do.
  - apply Part000_nothing_to_do.
Qed.

Lemma C7_witness :
  (let w := soleBranch (js "*main:::2 hours ago:::2024-01-01T00:00:00+0000" ++ LF) in
   GitBranchDelete.run w =
     (Return tt,
      [ConsoleLog (js "Only one branch (current) exists. Nothing to do.");
       ExecDone GitBranchDelete.listCmd
         (ExecOk (js "*main:::2 hours ago:::2024-01-01T00:00:00+0000" ++ LF));
       ExecStart GitBranchDelete.listCmd])
   /\ existsb isPrompt (snd (GitBranchDelete.run w)) = false
   /\ deleteFree (snd (GitBranchDelete.run w)))
  /\ (let w := soleBranch (js "*:main:::2 hours ago:::2024-01-01T00:00:00+0000" ++ LF) in
      Part000.run w =
        (Return tt,
         [ConsoleLog (js "There is only one branch (the current branch). Nothing to do.");
          ExecDone Part000.listCmd
            (ExecOk (js "*:main:::2 hours ago:::2024-01-01T00:00:00+0000" ++ LF));
          ExecStart Part000.listCmd])
      /\ existsb isPrompt (snd (Part000.run w)) = false
      /\ deleteFree (snd (Part000.run w))).
Proof.
  split; cbv zeta.
  - apply (proj1 (C7_sole_current_branch_early_exit
                    (soleBranch (js "*main:::2 hours ago:::2024-01-01T00:00:00+0000" ++ LF)))
             {| GitBranchDelete.name := js "main";
                GitBranchDelete.lastCommitRelative := js "2 hours ago";
                GitBranchDelete.lastCommit := js "2024-01-01T00:00:00+0000";
                GitBranchDelete.isCurrent := true |}).
    + vm_compute. reflexivity.
    + vm_compute. reflexivity.
    + reflexivity.
  - apply (proj2 (C7_sole_current_branch_early_exit
                    (soleBranch (js "*:main:::2 hours ago:::2024-01-01T00:00:00+0000" ++ LF)))
             {| Part000.name := js "main";
                Part000.lastCommitRelative := js "2 hours ago";
                Part000.lastCommit := Some (js "2024-01-01T00:00:00+0000");
                Part000.isCurrent := true |}).
    + vm_compute. reflexivity.
    + vm_compute. reflexivity.
    + reflexivity.
Defined.

(** A relative-time field that is present but empty is kept as it is by
    [src/git-branch-delete.ts] and replaced by the second script. *)
Lemma empty_relative_time :
  option_map GitBranchDelete.lastCommitRelative
    (GitBranchDelete.parseLine (js " main:::")) = Some []
  /\ option_map Part000.lastCommitRelative
       (Part000.parseLine (js " :main:::")) = Some Unknown.
Proof. split; vm_compute; reflexivity. Qed.

(** The edge cases of parsing: the empty output, a blank line, a line
    without a delimiter. *)
Lemma parsing_edge_cases :
  GitBranchDelete.parseBranches [] = Some []
  /\ Part000.parseBranches [] = Some []
  /\ GitBranchDelete.parseBranches (LF ++ LF) = Some []
  /\ Part000.parseBranches (LF ++ LF) = Some []
  /\ option_map (map GitBranchDelete.name)
       (GitBranchDelete.parseBranches (js "  orphan" ++ LF)) = Some [js "orphan"]
  /\ option_map (map Part000.name)
       (Part000.parseBranches (js " :orphan" ++ LF)) = Some [js "orphan"].
Proof. repeat split; vm_compute; reflexivity. Qed.

(** The two sessions of the specification: both features selected and
    confirmed, and the answer "maybe" followed by "no". *)
Lemma sessions_end_to_end :
  (let r := GitBranchDelete.run
              (session threeBranches (Submit yes) (ExecOk (js "Deleted"))) in
   started (snd r) = [GitBranchDelete.listCmd;
                      js "git branch -D 'feature-a' 'feature-b'"]
   /\ exitCode (fst r) = Some 0%Z)
  /\ (let r := Part000.run
                 (session threeRefs (Submit yes) (ExecOk (js "Deleted"))) in
      started (snd r) = [Part000.listCmd;
                         js "git branch -D 'feature-a'";
                         js "git branch -D 'feature-b'"]
      /\ exitCode (fst r) = Some 0%Z)
  /\ (let r := GitBranchDelete.run
                 (session threeBranches (Submit no) (ExecOk (js "Deleted"))) in
      started (snd r) = [GitBranchDelete.listCmd]
      /\ exitCode (fst r) = Some 0%Z)
  /\ (let r := Part000.run
                 (session threeRefs (Submit no) (ExecOk (js "Deleted"))) in
      started (snd r) = [Part000.listCmd]
      /\ exitCode (fst r) = Some 0%Z).
Proof. cbv zeta. repeat split; vm_compute; reflexivity. Qed.

(** * Further properties of the code *)

(** ** Locating the repository *)

(** X1: [isGitRepository] of the second script returns true exactly when
    some directory from the working directory up to the root, the root
    included, holds a [.git] entry. *)
Theorem X1_isGitRepository_iff_some_ancestor (fs : path -> bool) (dir : path) :
  Part000.isGitRepositoryFrom fs dir = true <->
  exists d, In d (ancestors dir) /\ fs (dotGit d) = true.
Proof. apply isGitRepositoryFrom_spec. Qed.

(** X2: [findGitRoot] of [src/git-branch-delete.ts] returns true exactly
    when some directory from the working directory upward, other than
    the root, holds a [.git] entry. *)
Theorem X2_findGitRoot_iff_some_ancestor_below_root (fs : path -> bool)
    (dir : path) :
  GitBranchDelete.findGitRootFrom fs dir = true <->
  exists d, In d (ancestors dir) /\ d <> [] /\ fs (dotGit d) = true.
Proof. apply findGitRootFrom_spec. Qed.

(** X3: the two locators differ by the probe of the root only:
    [isGitRepository] answers what [findGitRoot] answers, or that the
    root holds [.git]. *)
Theorem X3_locators_differ_at_root_only (fs : path -> bool) (dir : path) :
  Part000.isGitRepositoryFrom fs dir =
    GitBranchDelete.findGitRootFrom fs dir || fs (dotGit []).
Proof.
  induction dir as [|c parent IH].
  - simpl. destruct (fs (dotGit [])); reflexivity.
  - cbn [Part000.isGitRepositoryFrom GitBranchDelete.findGitRootFrom].
    destruct (fs (dotGit (c :: parent))); [reflexivity | exact IH].
Qed.

(** X4: a directory below a located repository is located too, for both
    locators: the answer true is kept when the working directory moves
    down by any number of components. *)
Theorem X4_located_in_subdirectories (fs : path -> bool) (dir sub : path) :
  (GitBranchDelete.findGitRootFrom fs dir = true ->
   GitBranchDelete.findGitRootFrom fs (sub ++ dir) = true)
  /\ (Part000.isGitRepositoryFrom fs dir = true ->
      Part000.isGitRepositoryFrom fs (sub ++ dir) = true).
Proof.
  split; intros H; induction sub as [|c sub IH]; try exact H.
  - cbn [app GitBranchDelete.findGitRootFrom].
    destruct (fs (dotGit (c :: sub ++ dir))); [reflexivity | exact IH].
  - cbn [app Part000.isGitRepositoryFrom].
    destruct (fs (dotGit (c :: sub ++ dir))); [reflexivity | exact IH].
Qed.

Lemma X4_witness :
  GitBranchDelete.findGitRootFrom (onlyRepoAt home) ([js "lib"; js "src"] ++ home)
    = true
  /\ Part000.isGitRepositoryFrom (onlyRepoAt home) ([js "lib"; js "src"] ++ home)
     = true.
Proof.
  split.
  - apply (proj1 (X4_located_in_subdirectories (onlyRepoAt home) home
                    [js "lib"; js "src"])).
    vm_compute. reflexivity.
  - apply (proj2 (X4_located_in_subdirectories (onlyRepoAt home) home
                    [js "lib"; js "src"])).
    vm_compute. reflexivity.
Defined.

(** ** Parsing the enumeration output *)

Section ParsingFacts.

Lemma dropWhile_app p s t :
  dropWhile p (s ++ t) =
    if forallb p s then dropWhile p t else dropWhile p s ++ t.
Proof.
  induction s as [|c s IH]; simpl; [reflexivity|].
  destruct (p c); simpl; [exact IH | reflexivity].
Qed.

Lemma dropWhile_all p s : forallb p s = true -> dropWhile p s = [].
Proof.
  induction s as [|c s IH]; simpl; [reflexivity|].
  destruct (p c); simpl; [exact IH | discriminate].
Qed.

Lemma forallb_rev {A} (p : A -> bool) l : forallb p (rev l) = forallb p l.
Proof.
  induction l as [|x l IH]; simpl; [reflexivity|].
  rewrite forallb_app, IH. simpl. rewrite andb_true_r. apply andb_comm.
Qed.

(** White space around a string does not change what [trim] returns. *)
Lemma trim_padded pre s post :
  forallb isWhiteSpace pre = true -> forallb isWhiteSpace post = true ->
  trim (pre ++ s ++ post) = trim s.
Proof.
  intros Hpre Hpost. unfold trim, trimEnd, trimStart.
  rewrite dropWhile_app, Hpre, dropWhile_app.
  destruct (forallb isWhiteSpace s) eqn:Hs.
  - rewrite (dropWhile_all _ _ Hpost), (dropWhile_all _ _ Hs). reflexivity.
  - rewrite rev_app_distr, dropWhile_app, forallb_rev, Hpost. reflexivity.
Qed.

Lemma stripMarker_first s c rest :
  GitBranchDelete.stripMarker s = c :: rest ->
  isWhiteSpace c = false /\ c <> 42%N.
Proof.
  unfold GitBranchDelete.stripMarker.
  induction s as [|x s IH]; simpl; [discriminate|].
  destruct (isWhiteSpace x || (x =? 42)%N) eqn:E; [exact IH|].
  intros H; injection H as -> _.
  apply orb_false_iff in E. destruct E as [Hw Hs].
  split; [exact Hw | apply N.eqb_neq, Hs].
Qed.

Lemma mapM_In {A B} (f : A -> option B) l ys y :
  mapM f l = Some ys -> In y ys -> exists x, In x l /\ f x = Some y.
Proof.
  revert ys. induction l as [|x l IH]; intros ys; simpl.
  - intros H; injection H as <-. intros [].
  - destruct (f x) as [y'|] eqn:Fx; [|discriminate].
    destruct (mapM f l) as [ys'|]; [|discriminate].
    intros H; injection H as <-. intros [<-|Hin].
    + exists x. auto.
    + destruct (IH ys' eq_refl Hin) as (x' & Hx' & E). exists x'. auto.
Qed.

Lemma mapM_app {A B} (f : A -> option B) l l' :
  mapM f (l ++ l') =
    match mapM f l, mapM f l' with
    | Some ys, Some ys' => Some (ys ++ ys')
    | _, _ => None
    end.
Proof.
  induction l as [|x l IH]; simpl.
  - destruct (mapM f l'); reflexivity.
  - destruct (f x); [|reflexivity]. rewrite IH.
    destruct (mapM f l), (mapM f l'); reflexivity.
Qed.

(** A separator of one code unit at the end adds one empty field. *)
Lemma split_scan_trailing c cur s :
  split_scan [c] 0 cur (s ++ [c]) = split_scan [c] 0 cur s ++ [[]].
Proof.
  revert cur. induction s as [|x s IH]; intros cur.
  - simpl. unfold cu_eqb. rewrite N.eqb_refl. reflexivity.
  - cbn [app split_scan].
    assert (E : startsWith [c] (x :: s ++ [c]) = startsWith [c] (x :: s))
      by reflexivity.
    rewrite E. destruct (startsWith [c] (x :: s)).
    + cbn [List.length Nat.sub]. rewrite IH. reflexivity.
    + apply IH.
Qed.

(** A string in which the separator does not occur is one field. *)
Lemma split_scan_not_included sep cur s :
  includes sep s = false -> split_scan sep 0 cur s = [rev cur ++ s].
Proof.
  revert cur. induction s as [|c s IH]; intros cur H.
  - simpl. rewrite app_nil_r. reflexivity.
  - cbn [includes] in H. apply orb_false_iff in H. destruct H as [H1 H2].
    cbn [split_scan]. rewrite H1, (IH _ H2). simpl. rewrite <- app_assoc.
    reflexivity.
Qed.

(** A field without a colon ends at the delimiter that follows it. *)
Lemma split_scan_field cur a r :
  noColon a = true ->
  split_scan delim 0 cur (a ++ delim ++ r) = (rev cur ++ a) :: split delim r.
Proof.
  revert cur. induction a as [|c a IH]; intros cur H.
  - rewrite app_nil_r. reflexivity.
  - simpl in H. apply andb_true_iff in H. destruct H as [Hc Ha].
    cbn [app split_scan].
    assert (E : startsWith delim (c :: a ++ delim ++ r) = false).
    { change delim with [58%N; 58%N; 58%N]. cbn [startsWith]. unfold cu_eqb.
      apply negb_true_iff in Hc. rewrite (N.eqb_sym 58 c), Hc. reflexivity. }
    rewrite E, (IH _ Ha). simpl. rewrite <- app_assoc. reflexivity.
Qed.

(** The empty line gives the second script a record that its filter drops. *)
Lemma Part000_empty_line_dropped (lines : list jsstring) :
  match mapM Part000.parseLine (lines ++ [[]]) with
  | Some branches =>
      Some (filter (fun b => negb (str_eqb (Part000.name b) [])) branches)
  | None => None
  end =
  match mapM Part000.parseLine lines with
  | Some branches =>
      Some (filter (fun b => negb (str_eqb (Part000.name b) [])) branches)
  | None => None
  end.
Proof.
  rewrite mapM_app.
  destruct (mapM Part000.parseLine lines) as [l|]; [|reflexivity].
  change (mapM Part000.parseLine [[]])
    with (Some [ {| Part000.name := [];
                    Part000.lastCommitRelative := Unknown;
                    Part000.lastCommit := None;
                    Part000.isCurrent := false |} ]).
  cbv beta iota. rewrite filter_app. simpl. rewrite app_nil_r. reflexivity.
Qed.

(** What [src/git-branch-delete.ts] reads in a line of three fields
    behind a marker of white space and stars. *)
Lemma GitBranchDelete_parseLine_fields (m n rel date : jsstring) :
  forallb (fun c => isWhiteSpace c || (c =? 42)%N) m = true ->
  noColon m = true ->
  noColon n = true -> startsPlain n = true ->
  noColon rel = true -> includes delim date = false ->
  GitBranchDelete.parseLine (m ++ n ++ delim ++ rel ++ delim ++ date)
  = Some {| GitBranchDelete.name := n;
            GitBranchDelete.lastCommitRelative := rel;
            GitBranchDelete.lastCommit := date;
            GitBranchDelete.isCurrent := startsWith (js "*") (m ++ n) |}.
Proof.
  intros Hm Hmc Hn Hplain Hrel Hdate. unfold GitBranchDelete.parseLine, split.
  rewrite app_assoc, split_scan_field.
  2: { unfold noColon. rewrite forallb_app. apply andb_true_iff.
       split; [exact Hmc | exact Hn]. }
  unfold split. rewrite split_scan_field by exact Hrel.
  unfold split. rewrite split_scan_not_included by exact Hdate.
  cbn [rev app nth_error].
  assert (Hstrip : GitBranchDelete.stripMarker (m ++ n) = n).
  { unfold GitBranchDelete.stripMarker. rewrite dropWhile_app, Hm.
    destruct n as [|c n']; [reflexivity|].
    simpl in Hplain. apply negb_true_iff in Hplain.
    cbn [dropWhile]. rewrite Hplain. reflexivity. }
  rewrite Hstrip. reflexivity.
Qed.

(** What the second script reads in a line of three fields behind a
    marker and a colon. *)
Lemma Part000_parseLine_fields (marker : code_unit) (n rel date : jsstring) :
  noColon n = true -> noColon rel = true -> includes delim date = false ->
  Part000.parseLine (marker :: 58%N :: n ++ delim ++ rel ++ delim ++ date)
  = Some {| Part000.name := n;
            Part000.lastCommitRelative := if truthy rel then rel else Unknown;
            Part000.lastCommit := Some date;
            Part000.isCurrent := (marker =? 42)%N |}.
Proof.
  intros Hn Hrel Hdate. unfold Part000.parseLine, split, substring.
  cbn [skipn]. rewrite split_scan_field by exact Hn.
  unfold split. rewrite split_scan_field by exact Hrel.
  unfold split. rewrite split_scan_not_included by exact Hdate.
  cbn [rev app nth_error]. f_equal. f_equal.
  simpl. unfold cu_eqb. rewrite N.eqb_sym, andb_true_r. reflexivity.
Qed.

Lemma Part000_final_newline (stdout : jsstring) :
  Part000.parseBranches (stdout ++ LF) = Part000.parseBranches stdout.
Proof.
  unfold Part000.parseBranches, split.
  change LF with [10%N]. rewrite split_scan_trailing.
  apply Part000_empty_line_dropped.
Qed.

End ParsingFacts.

(** X5: whatever the stdout, the name of every record that
    [getGitBranches] of [src/git-branch-delete.ts] returns begins with a
    code unit that is neither white space nor a star. *)
Theorem X5_names_start_plain (stdout : jsstring) :
  exists branches,
    GitBranchDelete.parseBranches stdout = Some branches
    /\ Forall (fun b => exists c rest,
                 GitBranchDelete.name b = c :: rest
                 /\ isWhiteSpace c = false /\ c <> 42%N) branches.
Proof.
  destruct (GitBranchDelete_parseBranches_total stdout) as [branches E].
  exists branches. split; [exact E|].
  unfold GitBranchDelete.parseBranches in E.
  destruct (mapM GitBranchDelete.parseLine (split LF (trim stdout)))
    as [all|] eqn:M; [|discriminate].
  injection E as <-. apply Forall_forall. intros b Hb.
  apply filter_In in Hb. destruct Hb as [Hin Hname].
  destruct (mapM_In _ _ _ M Hin) as (line & _ & Hline).
  unfold GitBranchDelete.parseLine in Hline.
  destruct (split delim line) as [|prefix parts]; [discriminate|].
  injection Hline as <-. simpl in *.
  destruct (GitBranchDelete.stripMarker prefix) as [|c rest] eqn:S;
    [discriminate|].
  exists c, rest. split; [reflexivity|]. exact (stripMarker_first _ S).
Qed.

(** X6: white space before and after the stdout (blank lines, a final
    newline) does not change what [src/git-branch-delete.ts] parses. *)
Theorem X6_surrounding_white_space_ignored (pre stdout post : jsstring) :
  forallb isWhiteSpace pre = true ->
  forallb isWhiteSpace post = true ->
  GitBranchDelete.parseBranches (pre ++ stdout ++ post)
    = GitBranchDelete.parseBranches stdout.
Proof.
  intros Hpre Hpost. unfold GitBranchDelete.parseBranches.
  rewrite trim_padded by assumption. reflexivity.
Qed.

Lemma X6_witness :
  GitBranchDelete.parseBranches ((LF ++ js "  ") ++ js "*main:::now:::d" ++ (LF ++ LF))
    = GitBranchDelete.parseBranches (js "*main:::now:::d").
Proof.
  apply X6_surrounding_white_space_ignored; vm_compute; reflexivity.
Defined.

(** X7: in the second script a newline at the end of the stdout adds no
    record: the empty last line is parsed into a record with the empty
    name, which the filter drops. *)
Theorem X7_final_newline_adds_no_record (stdout : jsstring) :
  Part000.parseBranches (stdout ++ LF) = Part000.parseBranches stdout.
Proof. apply Part000_final_newline. Qed.

(** X8: [src/git-branch-delete.ts] reads back a line as the enumeration
    command prints it: marker, name, relative time and date, the marker
    a star or a blank, name and relative time without a colon, the name
    not beginning with white space or a star, the date without the
    delimiter. *)
Theorem X8_line_round_trip (current : bool) (n rel date : jsstring) :
  noColon n = true -> startsPlain n = true ->
  noColon rel = true -> includes delim date = false ->
  GitBranchDelete.parseLine
    ((if current then js "*" else js " ") ++ n ++ delim ++ rel ++ delim ++ date)
  = Some {| GitBranchDelete.name := n;
            GitBranchDelete.lastCommitRelative := rel;
            GitBranchDelete.lastCommit := date;
            GitBranchDelete.isCurrent := current |}.
Proof.
  intros Hn Hplain Hrel Hdate.
  rewrite GitBranchDelete_parseLine_fields;
    try assumption; destruct current; reflexivity.
Qed.

Lemma X8_witness :
  GitBranchDelete.parseLine
    (js " " ++ js "feature/login" ++ delim ++ js "3 days ago" ++ delim
     ++ js "2023-12-29 10:15:00 +0000")
  = Some {| GitBranchDelete.name := js "feature/login";
            GitBranchDelete.lastCommitRelative := js "3 days ago";
            GitBranchDelete.lastCommit := js "2023-12-29 10:15:00 +0000";
            GitBranchDelete.isCurrent := false |}.
Proof.
  apply (X8_line_round_trip false (js "feature/login") (js "3 days ago")
           (js "2023-12-29 10:15:00 +0000")); vm_compute; reflexivity.
Defined.

(** X9: the second script reads back a line as its command prints it:
    one code unit of marker, a colon, then name, relative time and date;
    the record is current exactly when the marker is a star, and an
    empty relative time is replaced by "Unknown". *)
Theorem X9_ref_line_round_trip (marker : code_unit) (n rel date : jsstring) :
  noColon n = true -> noColon rel = true -> includes delim date = false ->
  Part000.parseLine (marker :: 58%N :: n ++ delim ++ rel ++ delim ++ date)
  = Some {| Part000.name := n;
            Part000.lastCommitRelative := if truthy rel then rel else Unknown;
            Part000.lastCommit := Some date;
            Part000.isCurrent := (marker =? 42)%N |}.
Proof. apply Part000_parseLine_fields. Qed.

Lemma X9_witness :
  Part000.parseLine
    (42%N :: 58%N :: js "main" ++ delim ++ js "2 hours ago" ++ delim
     ++ js "2024-01-01 00:00:00 +0000")
  = Some {| Part000.name := js "main";
            Part000.lastCommitRelative := js "2 hours ago";
            Part000.lastCommit := Some (js "2024-01-01 00:00:00 +0000");
            Part000.isCurrent := true |}.
Proof.
  apply (X9_ref_line_round_trip 42%N (js "main") (js "2 hours ago")
           (js "2024-01-01 00:00:00 +0000")); vm_compute; reflexivity.
Defined.

(** ** The whole enumeration output *)

Section OutputFacts.

Lemma noLF_app a b : noLF (a ++ b) = noLF a && noLF b.
Proof. apply forallb_app. Qed.

Lemma noLF_not_included s : noLF s = true -> includes LF s = false.
Proof.
  induction s as [|c s IH]; [reflexivity|].
  intros H. simpl in H. apply andb_true_iff in H. destruct H as [Hc Hs].
  cbn [includes]. rewrite (IH Hs), orb_false_r.
  change LF with [10%N]. cbn [startsWith]. unfold cu_eqb.
  apply negb_true_iff in Hc. rewrite (N.eqb_sym 10 c), Hc. reflexivity.
Qed.

(** A line without a newline ends at the newline that follows it. *)
Lemma split_scan_line cur a r :
  noLF a = true ->
  split_scan LF 0 cur (a ++ LF ++ r) = (rev cur ++ a) :: split LF r.
Proof.
  revert cur. induction a as [|c a IH]; intros cur H.
  - rewrite app_nil_r. reflexivity.
  - simpl in H. apply andb_true_iff in H. destruct H as [Hc Ha].
    cbn [app split_scan].
    assert (E : startsWith LF (c :: a ++ LF ++ r) = false).
    { change LF with [10%N]. cbn [startsWith]. unfold cu_eqb.
      apply negb_true_iff in Hc. rewrite (N.eqb_sym 10 c), Hc. reflexivity. }
    rewrite E, (IH _ Ha). simpl. rewrite <- app_assoc. reflexivity.
Qed.

(** Lines printed one below the other are split into these lines. *)
Lemma split_join_lines lines :
  lines <> [] -> forallb noLF lines = true ->
  split LF (join LF lines) = lines.
Proof.
  induction lines as [|l [|l' rest] IH]; intros Hne H; [congruence| |].
  - simpl in H. rewrite andb_true_r in H. unfold split. cbn [join].
    rewrite split_scan_not_included by (apply noLF_not_included, H).
    reflexivity.
  - change (join LF (l :: l' :: rest)) with (l ++ LF ++ join LF (l' :: rest)).
    cbn [forallb] in H. apply andb_true_iff in H. destruct H as [Hl H].
    unfold split at 1. rewrite split_scan_line by exact Hl.
    rewrite IH; [reflexivity | discriminate | exact H].
Qed.

Lemma printed_join lines :
  lines <> [] -> printed lines = join LF lines ++ LF.
Proof.
  unfold printed.
  induction lines as [|l [|l' rest] IH]; intros Hne; [congruence| |].
  - simpl. rewrite app_nil_r. reflexivity.
  - change (join LF (l :: l' :: rest)) with (l ++ LF ++ join LF (l' :: rest)).
    cbn [map List.concat] in *. rewrite IH by discriminate.
    rewrite <- !app_assoc. reflexivity.
Qed.

Lemma mapM_map {A B} (f : A -> option B) (g : B -> A) l :
  (forall x, In x l -> f (g x) = Some x) -> mapM f (map g l) = Some l.
Proof.
  induction l as [|x l IH]; intros H; [reflexivity|].
  cbn [map mapM]. rewrite (H x (or_introl eq_refl)), IH; [reflexivity|].
  intros y Hy. apply H. right. exact Hy.
Qed.

Lemma filter_all {A} (p : A -> bool) l :
  forallb p l = true -> filter p l = l.
Proof.
  induction l as [|x l IH]; simpl; [reflexivity|].
  intros H. apply andb_true_iff in H. destruct H as [-> H].
  rewrite (IH H). reflexivity.
Qed.

Lemma printableRef_parsed b :
  printableRef b = true -> Part000.parseLine (refLine b) = Some b.
Proof.
  destruct b as [n rel [d|] cur]; unfold printableRef, refLine;
    cbn [Part000.name Part000.lastCommitRelative Part000.lastCommit
         Part000.isCurrent]; intros H.
  2: { rewrite andb_false_r in H. discriminate. }
  repeat match goal with
         | A : _ && _ = true |- _ => apply andb_true_iff in A; destruct A
         end.
  rewrite Part000_parseLine_fields;
    [| assumption | assumption | apply negb_true_iff; assumption].
  replace (truthy rel) with true by (symmetry; assumption).
  destruct cur; reflexivity.
Qed.

Lemma printable_parsed b :
  printable b = true -> GitBranchDelete.parseLine (branchLine b) = Some b.
Proof.
  destruct b as [n rel d cur]; unfold printable, branchLine;
    cbn [GitBranchDelete.name GitBranchDelete.lastCommitRelative
         GitBranchDelete.lastCommit GitBranchDelete.isCurrent]; intros H.
  repeat match goal with
         | A : _ && _ = true |- _ => apply andb_true_iff in A; destruct A
         end.
  assert (Hd : includes delim d = false) by (apply negb_true_iff; assumption).
  assert (Hm : forallb (fun c => isWhiteSpace c || (c =? 42)%N)
                 (if cur then js "*" else js " ") = true)
    by (destruct cur; reflexivity).
  assert (Hmc : noColon (if cur then js "*" else js " ") = true)
    by (destruct cur; reflexivity).
  rewrite (GitBranchDelete_parseLine_fields _ _ _ _ Hm Hmc) by assumption.
  destruct cur; reflexivity.
Qed.

Lemma refLine_noLF b : printableRef b = true -> noLF (refLine b) = true.
Proof.
  destruct b as [n rel [d|] cur]; unfold printableRef, refLine;
    cbn [Part000.name Part000.lastCommitRelative Part000.lastCommit
         Part000.isCurrent]; intros H.
  2: { rewrite andb_false_r in H. discriminate. }
  repeat match goal with
         | A : _ && _ = true |- _ => apply andb_true_iff in A; destruct A
         end.
  change (noLF ([if cur then 42%N else 32%N; 58%N]
                ++ n ++ delim ++ rel ++ delim ++ d) = true).
  rewrite !noLF_app.
  repeat (apply andb_true_iff; split); try assumption; try reflexivity.
  destruct cur; reflexivity.
Qed.

Lemma branchLine_noLF b : printable b = true -> noLF (branchLine b) = true.
Proof.
  destruct b as [n rel d cur]; unfold printable, branchLine;
    cbn [GitBranchDelete.name GitBranchDelete.lastCommitRelative
         GitBranchDelete.lastCommit GitBranchDelete.isCurrent]; intros H.
  repeat match goal with
         | A : _ && _ = true |- _ => apply andb_true_iff in A; destruct A
         end.
  rewrite !noLF_app.
  repeat (apply andb_true_iff; split); try assumption; try reflexivity.
  destruct cur; reflexivity.
Qed.

Lemma forallb_map {A B} (p : B -> bool) (g : A -> B) l :
  forallb p (map g l) = forallb (fun x => p (g x)) l.
Proof. induction l as [|x l IH]; simpl; [|rewrite IH]; reflexivity. Qed.

Lemma forallb_impl {A} (p q : A -> bool) l :
  (forall x, p x = true -> q x = true) ->
  forallb p l = true -> forallb q l = true.
Proof.
  intros Hpq. induction l as [|x l IH]; simpl; [reflexivity|].
  intros H. apply andb_true_iff in H. destruct H as [Hx Hl].
  rewrite (Hpq x Hx), (IH Hl). reflexivity.
Qed.

(** The second script reads back everything its command prints. *)
Lemma Part000_parse_printed branches :
  forallb printableRef branches = true ->
  Part000.parseBranches (printed (map refLine branches)) = Some branches.
Proof.
  intros H. destruct branches as [|b rest] eqn:Eb; [reflexivity|].
  rewrite <- Eb in *. assert (Hne : map refLine branches <> [])
    by (subst branches; discriminate).
  rewrite (printed_join Hne), Part000_final_newline.
  unfold Part000.parseBranches.
  rewrite split_join_lines; [| exact Hne |].
  2: { rewrite forallb_map. revert H. apply forallb_impl, refLine_noLF. }
  rewrite mapM_map.
  2: { intros x Hx. apply printableRef_parsed.
       rewrite forallb_forall in H. apply H, Hx. }
  rewrite filter_all; [reflexivity|].
  revert H. apply forallb_impl. intros x Hx.
  unfold printableRef in Hx.
  repeat match goal with
         | A : _ && _ = true |- _ => apply andb_true_iff in A; destruct A
         end.
  destruct (Part000.name x); [discriminate | reflexivity].
Qed.

Lemma endsPlain_app a b :
  b <> [] -> endsPlain b = true -> endsPlain (a ++ b) = true.
Proof.
  unfold endsPlain. intros Hne H. rewrite rev_app_distr.
  destruct (rev b) as [|c r] eqn:E; [|exact H].
  exfalso. apply Hne. rewrite <- (rev_involutive b), E. reflexivity.
Qed.

Lemma trimEnd_plain s : endsPlain s = true -> trimEnd s = s.
Proof.
  unfold endsPlain, trimEnd, trimStart. intros H.
  destruct (rev s) as [|c r] eqn:E.
  - simpl. rewrite <- (rev_involutive s), E. reflexivity.
  - cbn [dropWhile]. apply negb_true_iff in H. rewrite H.
    rewrite <- E. apply rev_involutive.
Qed.

Lemma branchLine_endsPlain b :
  printable b = true ->
  endsPlain (delim ++ GitBranchDelete.lastCommit b) = true.
Proof.
  unfold printable. intros H.
  repeat match goal with
         | A : _ && _ = true |- _ => apply andb_true_iff in A; destruct A
         end.
  destruct (GitBranchDelete.lastCommit b) as [|c d] eqn:E; [reflexivity|].
  apply endsPlain_app; [discriminate | assumption].
Qed.

Lemma join_endsPlain lines :
  lines <> [] -> Forall (fun l => l <> [] /\ endsPlain l = true) lines ->
  join LF lines <> [] /\ endsPlain (join LF lines) = true.
Proof.
  induction lines as [|l [|l' rest] IH]; intros Hne H; [congruence| |].
  - inversion H; subst. assumption.
  - change (join LF (l :: l' :: rest)) with (l ++ LF ++ join LF (l' :: rest)).
    inversion H as [|? ? [Hl _] H']; subst.
    destruct (IH ltac:(discriminate) H') as [Hj Hp].
    split; [destruct l; [congruence | discriminate]|].
    apply endsPlain_app; [discriminate|].
    apply endsPlain_app; assumption.
Qed.

(** The first printed line once [trim] has taken the blank marker off:
    it is read as the same record. *)
Lemma first_line_trimmed b :
  printable b = true ->
  exists l,
    (forall t, trimStart (branchLine b ++ t) = l ++ t)
    /\ GitBranchDelete.parseLine l = Some b
    /\ noLF l = true /\ l <> [] /\ endsPlain l = true.
Proof.
  intros Hb. pose proof (branchLine_endsPlain b Hb) as Hend.
  pose proof (branchLine_noLF b Hb) as HnoLF.
  pose proof (printable_parsed b Hb) as Hparsed.
  destruct b as [n rel d cur]; unfold printable, branchLine in *;
    cbn [GitBranchDelete.name GitBranchDelete.lastCommitRelative
         GitBranchDelete.lastCommit GitBranchDelete.isCurrent] in *.
  repeat match goal with
         | A : _ && _ = true |- _ => apply andb_true_iff in A; destruct A
         end.
  destruct cur.
  - exists (js "*" ++ n ++ delim ++ rel ++ delim ++ d).
    split; [intros t; reflexivity|]. split; [exact Hparsed|].
    split; [exact HnoLF|]. split; [discriminate|].
    rewrite !app_assoc. rewrite <- (app_assoc _ delim d).
    apply endsPlain_app; [discriminate | exact Hend].
  - destruct n as [|c n']; [discriminate|].
    match goal with
    | P : startsPlain (c :: n') = true |- _ =>
        simpl in P; apply negb_true_iff, orb_false_iff in P;
        destruct P as [Hws Hstar]
    end.
    exists ((c :: n') ++ delim ++ rel ++ delim ++ d).
    split.
    { intros t. unfold trimStart. change (js " ") with [32%N].
      cbn [app dropWhile]. change (isWhiteSpace 32%N) with true. cbv iota.
      rewrite Hws. reflexivity. }
    split.
    { change ((c :: n') ++ delim ++ rel ++ delim ++ d)
        with ([] ++ (c :: n') ++ delim ++ rel ++ delim ++ d).
      rewrite (GitBranchDelete_parseLine_fields [] (c :: n') rel d);
        try assumption; try reflexivity.
      - f_equal. f_equal. change (js "*") with [42%N].
        cbn [app startsWith]. unfold cu_eqb.
        rewrite (N.eqb_sym 42 c), Hstar. reflexivity.
      - simpl. rewrite Hws, Hstar. reflexivity.
      - apply negb_true_iff. assumption. }
    split.
    { change (js " " ++ (c :: n') ++ delim ++ rel ++ delim ++ d)
        with ([32%N] ++ (c :: n') ++ delim ++ rel ++ delim ++ d) in HnoLF.
      rewrite noLF_app in HnoLF. apply andb_true_iff in HnoLF. apply HnoLF. }
    split; [discriminate|].
    rewrite !app_assoc. rewrite <- (app_assoc _ delim d).
    apply endsPlain_app; [discriminate | exact Hend].
Qed.

Lemma join_head sep x rest :
  join sep (x :: rest) =
    x ++ match rest with [] => [] | _ :: _ => sep ++ join sep rest end.
Proof. destruct rest; [symmetry; apply app_nil_r | reflexivity]. Qed.

(** [src/git-branch-delete.ts] reads back everything its command prints. *)
Lemma GitBranchDelete_parse_printed branches :
  forallb printable branches = true ->
  GitBranchDelete.parseBranches (printed (map branchLine branches))
    = Some branches.
Proof.
  intros H. destruct branches as [|b rest]; [reflexivity|].
  cbn [forallb] in H. apply andb_true_iff in H. destruct H as [Hb Hrest].
  destruct (first_line_trimmed b Hb) as (l & Htrim & Hparsed & HnoLF & Hne & Hend).
  assert (Hlines : Forall (fun x => x <> [] /\ endsPlain x = true)
                     (map branchLine rest)).
  { apply Forall_forall. intros x Hx. apply in_map_iff in Hx.
    destruct Hx as (r & <- & Hr).
    rewrite forallb_forall in Hrest. specialize (Hrest r Hr).
    split.
    - unfold branchLine. destruct (GitBranchDelete.isCurrent r); discriminate.
    - unfold branchLine. rewrite !app_assoc.
      rewrite <- (app_assoc _ delim (GitBranchDelete.lastCommit r)).
      apply endsPlain_app; [discriminate | apply branchLine_endsPlain, Hrest]. }
  assert (Etrim : trim (printed (map branchLine (b :: rest)))
                  = join LF (l :: map branchLine rest)).
  { rewrite printed_join by discriminate.
    change (join LF (map branchLine (b :: rest)) ++ LF)
      with ([] ++ join LF (map branchLine (b :: rest)) ++ LF).
    rewrite trim_padded by reflexivity.
    unfold trim. cbn [map]. rewrite join_head, Htrim, <- join_head.
    apply trimEnd_plain.
    apply join_endsPlain; [discriminate|].
    constructor; [split; assumption | exact Hlines]. }
  unfold GitBranchDelete.parseBranches. rewrite Etrim.
  rewrite split_join_lines; [| discriminate |].
  2: { cbn [forallb]. rewrite HnoLF, forallb_map. simpl.
       revert Hrest. apply forallb_impl, branchLine_noLF. }
  cbn [mapM]. rewrite Hparsed, mapM_map.
  2: { intros x Hx. apply printable_parsed.
       rewrite forallb_forall in Hrest. apply Hrest, Hx. }
  rewrite filter_all; [reflexivity|].
  cbn [forallb]. apply andb_true_iff. split.
  - unfold printable in Hb.
    repeat match goal with
           | A : _ && _ = true |- _ => apply andb_true_iff in A; destruct A
           end.
    assumption.
  - revert Hrest. apply forallb_impl. intros x Hx. unfold printable in Hx.
    repeat match goal with
           | A : _ && _ = true |- _ => apply andb_true_iff in A; destruct A
           end.
    assumption.
Qed.

End OutputFacts.

(** X10: [src/git-branch-delete.ts] reads back the whole output of its
    enumeration command: for records a repository can hold (see
    [printable]), parsing the lines the format makes of them, each
    followed by a newline, gives exactly these records, in that order. *)
Theorem X10_output_round_trip (branches : list GitBranchDelete.GitBranch) :
  forallb printable branches = true ->
  GitBranchDelete.parseBranches (printed (map branchLine branches))
    = Some branches.
Proof. apply GitBranchDelete_parse_printed. Qed.

Lemma X10_witness :
  GitBranchDelete.parseBranches
    (printed (map branchLine
       [ {| GitBranchDelete.name := js "feature/a";
            GitBranchDelete.lastCommitRelative := js "3 days ago";
            GitBranchDelete.lastCommit := js "2023-12-29 10:15:00 +0000";
            GitBranchDelete.isCurrent := false |};
         {| GitBranchDelete.name := js "main";
            GitBranchDelete.lastCommitRelative := js "2 hours ago";
            GitBranchDelete.lastCommit := js "2024-01-01 00:00:00 +0000";
            GitBranchDelete.isCurrent := true |} ]))
  = Some [ {| GitBranchDelete.name := js "feature/a";
              GitBranchDelete.lastCommitRelative := js "3 days ago";
              GitBranchDelete.lastCommit := js "2023-12-29 10:15:00 +0000";
              GitBranchDelete.isCurrent := false |};
           {| GitBranchDelete.name := js "main";
              GitBranchDelete.lastCommitRelative := js "2 hours ago";
              GitBranchDelete.lastCommit := js "2024-01-01 00:00:00 +0000";
              GitBranchDelete.isCurrent := true |} ].
Proof.
  apply X10_output_round_trip. vm_compute. reflexivity.
Defined.

(** X11: the second script reads back the whole output of its
    enumeration command: for records a repository can hold (see
    [printableRef]), parsing the lines the format makes of them, each
    followed by a newline, gives exactly these records, in that order. *)
Theorem X11_ref_output_round_trip (branches : list Part000.GitBranch) :
  forallb printableRef branches = true ->
  Part000.parseBranches (printed (map refLine branches)) = Some branches.
Proof. apply Part000_parse_printed. Qed.

Lemma X11_witness :
  Part000.parseBranches
    (printed (map refLine
       [ {| Part000.name := js "feature/a";
            Part000.lastCommitRelative := js "3 days ago";
            Part000.lastCommit := Some (js "2023-12-29 10:15:00 +0000");
            Part000.isCurrent := false |};
         {| Part000.name := js "main";
            Part000.lastCommitRelative := js "2 hours ago";
            Part000.lastCommit := Some (js "2024-01-01 00:00:00 +0000");
            Part000.isCurrent := true |} ]))
  = Some [ {| Part000.name := js "feature/a";
              Part000.lastCommitRelative := js "3 days ago";
              Part000.lastCommit := Some (js "2023-12-29 10:15:00 +0000");
              Part000.isCurrent := false |};
           {| Part000.name := js "main";
              Part000.lastCommitRelative := js "2 hours ago";
              Part000.lastCommit := Some (js "2024-01-01 00:00:00 +0000");
              Part000.isCurrent := true |} ].
Proof.
  apply X11_ref_output_round_trip. vm_compute. reflexivity.
Defined.

(** ** The choice list *)

Section SortedFacts.

Context {A : Type} (compare : A -> A -> Z).

Hypothesis total : forall a b, (compare a b <= 0)%Z \/ (compare b a <= 0)%Z.
Hypothesis trans :
  forall a b c, (compare a b <= 0)%Z -> (compare b c <= 0)%Z ->
                (compare a c <= 0)%Z.





End SortedFacts.


(** X12: whatever the listing, the choices of the second script are the
    names of its records that are not current, each once for each such
    record; every choice comes from such a record and shows its name and
    relative time. *)
Theorem X12_Part000_choices_are_the_non_current (w : World)
    (branches : list Part000.GitBranch) :
  Permutation (map value (Part000.choices w branches))
    (map Part000.name (filter (fun b => negb (Part000.isCurrent b)) branches))
  /\ forall c, In c (Part000.choices w branches) ->
       exists b, In b branches /\ Part000.isCurrent b = false
                 /\ value c = Part000.name b
                 /\ message c = Part000.name b ++ js " ("
                                ++ Part000.lastCommitRelative b ++ js ")".
Proof.
  split; [apply Part000_choices_spec|].
  intros c Hc. unfold Part000.choices, Part000.otherBranches,
    Part000.sortedBranches in Hc.
  apply in_map_iff in Hc. destruct Hc as (b & <- & Hb).
  apply filter_In in Hb. destruct Hb as [Hin Hcur].
  exists b. split.
  - eapply Permutation_in; [apply sort_perm | exact Hin].
  - split; [apply negb_true_iff, Hcur|]. split; reflexivity.
Qed.

(** X13: when exactly one record of the listing is current, the choices
    of [src/git-branch-delete.ts] are the records that are not current,
    in the order of the sort by name. *)
Theorem X13_choices_with_one_current (w : World)
    (branches : list GitBranchDelete.GitBranch) :
  List.length (filter GitBranchDelete.isCurrent branches) = 1 ->
  GitBranchDelete.choices w branches =
    map GitBranchDelete.toChoice
      (filter (fun b => negb (GitBranchDelete.isCurrent b))
         (sort (GitBranchDelete.byName w) branches))
  /\ Permutation (map value (GitBranchDelete.choices w branches))
       (map GitBranchDelete.name
          (filter (fun b => negb (GitBranchDelete.isCurrent b)) branches)).
Proof.
  intros Hone. rewrite (GitBranchDelete_choices_one_current w branches Hone).
  split; [reflexivity|]. rewrite map_map. simpl.
  apply Permutation_map, filter_perm, sort_perm.
Qed.

Lemma X13_witness :
  let main := {| GitBranchDelete.name := js "main";
                 GitBranchDelete.lastCommitRelative := js "now";
                 GitBranchDelete.lastCommit := js "d";
                 GitBranchDelete.isCurrent := true |} in
  let dev := {| GitBranchDelete.name := js "dev";
                GitBranchDelete.lastCommitRelative := js "1 day ago";
                GitBranchDelete.lastCommit := js "d";
                GitBranchDelete.isCurrent := false |} in
  let w := soleBranch [] in
  GitBranchDelete.choices w [main; dev] =
    map GitBranchDelete.toChoice
      (filter (fun b => negb (GitBranchDelete.isCurrent b))
         (sort (GitBranchDelete.byName w) [main; dev]))
  /\ Permutation (map value (GitBranchDelete.choices w [main; dev]))
       (map GitBranchDelete.name
          (filter (fun b => negb (GitBranchDelete.isCurrent b)) [main; dev])).
Proof.
  cbv zeta. apply X13_choices_with_one_current. reflexivity.
Defined.

(** X14: the choice list of [src/git-branch-delete.ts] always has one
    entry fewer than the listing has records (none for the empty
    listing), whether or not a record is current. *)
Theorem X14_one_choice_fewer_than_records (w : World)
    (branches : list GitBranchDelete.GitBranch) :
  List.length (GitBranchDelete.choices w branches) = List.length branches - 1.
Proof. apply GitBranchDelete_choices_length. Qed.



(** ** Confirming *)

Section PromptFacts.

Lemma validateYesNo_iff s : validateYesNo s = true <-> s = yes \/ s = no.
Proof.
  unfold validateYesNo. rewrite orb_true_iff, !str_eqb_eq. reflexivity.
Qed.

Lemma runInput_rejected rejected typed :
  Forall (fun s => s <> yes /\ s <> no) rejected ->
  runInput validateYesNo (map Submit rejected ++ typed)
    = runInput validateYesNo typed.
Proof.
  induction 1 as [|s rejected [Hy Hn] _ IH]; [reflexivity|].
  cbn [map app runInput].
  destruct (validateYesNo s) eqn:V; [|exact IH].
  apply validateYesNo_iff in V. tauto.
Qed.

End PromptFacts.



(** X17: the validator lets exactly "yes" and "no" through, so the input
    prompt passes over every other line the user submits: its answer is
    the first submitted "yes" or "no", and it is cancelled when Escape
    comes first. *)
Theorem X17_prompt_passes_over_other_input (rejected : list jsstring)
    (answer : jsstring) (rest : list attempt) :
  Forall (fun s => s <> yes /\ s <> no) rejected ->
  answer = yes \/ answer = no ->
  runInput validateYesNo (map Submit rejected ++ Submit answer :: rest)
    = Answered answer
  /\ runInput validateYesNo (map Submit rejected ++ Escape :: rest) = Cancelled
  /\ runInput validateYesNo (map Submit rejected) = Unanswered.
Proof.
  intros Hrej Hans. split; [|split].
  - rewrite runInput_rejected by exact Hrej. cbn [runInput].
    apply validateYesNo_iff in Hans. rewrite Hans. reflexivity.
  - rewrite runInput_rejected by exact Hrej. reflexivity.
  - rewrite <- (app_nil_r (map Submit rejected)).
    rewrite runInput_rejected by exact Hrej. reflexivity.
Qed.

Lemma X17_witness :
  runInput validateYesNo
    (map Submit [js "maybe"; js "Yes"; js " yes"; js "y"] ++ Submit no :: [])
    = Answered no
  /\ runInput validateYesNo
       (map Submit [js "maybe"; js "Yes"; js " yes"; js "y"] ++ Escape :: [])
     = Cancelled
  /\ runInput validateYesNo
       (map Submit [js "maybe"; js "Yes"; js " yes"; js "y"]) = Unanswered.
Proof.
  apply X17_prompt_passes_over_other_input.
  - repeat constructor; vm_compute; discriminate.
  - right. reflexivity.
Defined.

(** X18: [askForConfirmation] of the second script prints its two lines
    and shows the input prompt for every list, the empty one included;
    it returns true exactly when the prompt ends with the answer "yes",
    false for the answer "no", and rejects when the prompt is cancelled. *)
Theorem X18_askForConfirmation_behaviour (w : World) (h : history)
    (names : list jsstring) :
  exists msg typed line1 line2,
    let r := runInput validateYesNo typed in
    snd (Part000.askForConfirmation names w h)
      = PromptInput msg typed r :: ConsoleLog line2 :: ConsoleLog line1 :: h
    /\ (fst (Part000.askForConfirmation names w h) = Return true
        <-> r = Answered yes)
    /\ (fst (Part000.askForConfirmation names w h) = Return false
        <-> r = Answered no)
    /\ (r = Cancelled <->
        exists e, fst (Part000.askForConfirmation names w h) = Throw e).
Proof.
  rewrite askForConfirmation_run. cbv zeta.
  do 4 eexists. split; [reflexivity|]. simpl.
  destruct (runInput validateYesNo _) as [s| |] eqn:R.
  - destruct (runInput_yes_or_no _ R) as [-> | ->].
    + repeat split; try discriminate; try reflexivity.
      intros [e He]. discriminate.
    + repeat split; try discriminate; try reflexivity.
      intros [e He]. discriminate.
  - repeat split; try discriminate; eauto.
  - repeat split; try discriminate. intros [e He]. discriminate.
Qed.

(** ** Deleting, one command for each branch *)

Section DeleterFacts.

Variable w : World.

Lemma startAll_starts names h :
  exists evs,
    fst (Part000.startAll w h names) = evs ++ h
    /\ started evs = map Part000.deleteCmd names
    /\ existsb isExecDone evs = false.
Proof.
  revert h. induction names as [|b rest IH]; intros h.
  - exists []. repeat split.
  - cbn [Part000.startAll].
    destruct (IH (ExecStart (Part000.deleteCmd b)
                    :: ConsoleLog (Part000.deleteCmd b) :: h))
      as (evs & E & Hs & Hd).
    destruct (Part000.startAll w _ rest) as [h2 rs]. simpl in E. subst h2.
    exists (evs ++ [ExecStart (Part000.deleteCmd b); ConsoleLog (Part000.deleteCmd b)]).
    split; [simpl; rewrite <- app_assoc; reflexivity|]. split.
    + rewrite started_app, Hs. reflexivity.
    + rewrite existsb_app, Hd. reflexivity.
Qed.

Lemma untilSettled_failures rs h :
  exists evs,
    snd (fst (Part000.untilSettled w h rs)) = evs ++ h
    /\ started evs = []
    /\ ((fst (fst (Part000.untilSettled w h rs)) = Return tt
         /\ existsb isExecFailure evs = false
         /\ snd (Part000.untilSettled w h rs) = [])
        \/ (exists e, fst (fst (Part000.untilSettled w h rs)) = Throw e
                      /\ existsb isExecFailure evs = true)).
Proof.
  revert h. induction rs as [|[b [out|e]] rest IH]; intros h;
    cbn [Part000.untilSettled].
  - eexists [_]. repeat split. left. repeat split.
  - destruct (IH (Part000.callback (b, ExecOk out) h)) as (evs & E & Q & O).
    exists (evs ++ [ConsoleLog out; ExecDone (Part000.deleteCmd b) (ExecOk out)]).
    split; [rewrite E, <- app_assoc; reflexivity|].
    split; [rewrite started_app, Q; reflexivity|].
    rewrite existsb_app. simpl. rewrite orb_false_r. exact O.
  - eexists [_; _]. repeat split. right. eexists. split; reflexivity.
Qed.

Lemma deleteBranches_settles names h :
  exists starts dones,
    Part000.runLate (snd (Part000.deleteBranches names w h))
      (snd (fst (Part000.deleteBranches names w h))) = dones ++ starts ++ h
    /\ started starts = map Part000.deleteCmd names
    /\ existsb isExecDone starts = false
    /\ started dones = []
    /\ ((fst (fst (Part000.deleteBranches names w h)) = Return tt
         /\ existsb isExecFailure (dones ++ starts) = false)
        \/ (exists e, fst (fst (Part000.deleteBranches names w h)) = Throw e
                      /\ existsb isExecFailure (dones ++ starts) = true)).
Proof.
  unfold Part000.deleteBranches.
  destruct (startAll_starts names h) as (e1 & E1 & S1 & D1).
  destruct (Part000.startAll w h names) as [h1 rs]. simpl in E1. subst h1.
  destruct (untilSettled_failures rs (e1 ++ h)) as (e2 & E2 & Q2 & O).
  destruct (Part000.untilSettled w (e1 ++ h) rs) as [[o h2] rest].
  simpl in E2, O |- *. subst h2.
  destruct (runLate_history rest (e2 ++ e1 ++ h)) as (e3 & E3 & Q3).
  exists e1, (e3 ++ e2). rewrite E3, <- !app_assoc.
  split; [reflexivity|]. split; [exact S1|]. split; [exact D1|].
  split; [rewrite started_app, Q2, Q3; reflexivity|].
  assert (F1 : existsb isExecFailure e1 = false).
  { clear -D1. induction e1 as [|x e1 IH]; [reflexivity|].
    simpl in D1. apply orb_false_iff in D1. destruct D1 as [Dx D1].
    simpl. rewrite (IH D1). destruct x; try reflexivity; discriminate. }
  rewrite !existsb_app, F1, !orb_false_r.
  destruct O as [(-> & F2 & ->)|(e & -> & F2)].
  - left. split; [reflexivity|].
    unfold Part000.runLate in E3. simpl in E3.
    assert (e3 = []) as ->.
    { apply (app_inv_tail (e2 ++ e1 ++ h)). symmetry. exact E3. }
    simpl. exact F2.
  - right. exists e. split; [reflexivity|]. rewrite F2. apply orb_true_r.
Qed.

End DeleterFacts.

(** X19: [deleteBranches] of the second script prints and starts one
    force-delete for each given name, in the order of the list, before
    the result of any of them is handled, and whether or not some of
    them fail; handling the results starts no further command. *)
Theorem X19_one_delete_per_name_all_started_first (w : World) (h : history)
    (names : list jsstring) :
  exists starts dones,
    Part000.runLate (snd (Part000.deleteBranches names w h))
      (snd (fst (Part000.deleteBranches names w h))) = dones ++ starts ++ h
    /\ started starts = map Part000.deleteCmd names
    /\ existsb isExecDone starts = false
    /\ started dones = [].
Proof.
  destruct (deleteBranches_settles w names h) as (starts & dones & E & S & D & Q & _).
  exists starts, dones. auto.
Qed.

(** X20: the promise of [deleteBranches] of the second script resolves
    exactly when none of its commands has failed, and rejects
    otherwise. *)
Theorem X20_rejects_exactly_on_a_failed_delete (w : World) (h : history)
    (names : list jsstring) :
  exists evs,
    Part000.runLate (snd (Part000.deleteBranches names w h))
      (snd (fst (Part000.deleteBranches names w h))) = evs ++ h
    /\ (fst (fst (Part000.deleteBranches names w h)) = Return tt
        <-> existsb isExecFailure evs = false)
    /\ ((exists e, fst (fst (Part000.deleteBranches names w h)) = Throw e)
        <-> existsb isExecFailure evs = true).
Proof.
  destruct (deleteBranches_settles w names h)
    as (starts & dones & E & _ & _ & _ & O).
  exists (dones ++ starts). rewrite <- app_assoc. split; [exact E|].
  destruct O as [[-> F]|(e & -> & F)]; rewrite F.
  - split; [tauto|]. split; [intros [e He]; discriminate | discriminate].
  - split; [split; discriminate|]. split; eauto.
Qed.

(** ** Whole runs *)

Ltac run_histories w :=
  repeat match goal with
    | C : GitBranchDelete.confirmDeletion _ w _ = _ |- _ =>
        let e := fresh "conf" in let Q := fresh "Q" in
        destruct (confirmDeletion_history w _ _ C) as (e & -> & Q & _); clear C
    | G : GitBranchDelete.getGitBranches w [] = _ |- _ =>
        let r := fresh "r" in let F := fresh "Failed" in
        destruct (getGitBranches_history w _ G) as (r & -> & F); clear G
    | S : GitBranchDelete.selectBranchNames _ w _ = _ |- _ =>
        let e := fresh "sel" in let Q := fresh "Q" in
        destruct (selectBranchNames_history w _ _ S) as (e & -> & Q & _); clear S
    | N : ?selected <> [],
      D : GitBranchDelete.deleteBranches ?selected w _ = _ |- _ =>
        let e := fresh "del" in let r := fresh "r" in
        let Q := fresh "Q" in
        destruct (@deleteBranches_history w _ _ _ _ N D) as (e & r & -> & Q & _);
        clear D
    end.

Ltac count_started :=
  unfold reportError; cbn [snd];
  repeat first
    [ rewrite started_app
    | progress cbn [started app]
    | match goal with
      | Q : existsb isExec ?e = false |- context [started ?e] =>
          rewrite (quiet_started e Q)
      end ];
  rewrite ?app_nil_r.

Section RunFacts.

Variable w : World.

Lemma ends_started t res :
  ends w t res ->
  started (snd res) = []
  \/ started (snd res) = [GitBranchDelete.listCmd]
  \/ exists selected,
       selected <> []
       /\ started (snd res)
          = [GitBranchDelete.listCmd; GitBranchDelete.deleteCmd selected].
Proof.
  intros E.
  destruct E as
    [ L | e h L G | b h L G Cur | branches h h1 L G Sole Sel
    | branches h h1 L G Sole Sel | branches h h1 L G Sole Sel
    | branches selected h h1 h2 L G Sole Sel Ne Conf
    | branches selected h h1 h2 L G Sole Sel Ne Conf
    | branches selected h h1 h2 h3 L G Sole Sel Ne Conf Del
    | branches selected h h1 h2 h3 e L G Sole Sel Ne Conf Del ];
    try (left; reflexivity);
    try (right; left; run_histories w; count_started; reflexivity);
    right; right; exists selected; (split; [exact Ne|]);
    run_histories w; count_started; reflexivity.
Qed.

(** The second script: one command for each name, and a normal return. *)
Lemma deleteAndReport_starts names h :
  exists evs,
    Part000.deleteAndReport names w h = (Return tt, evs ++ h)
    /\ started evs = map Part000.deleteCmd names.
Proof.
  unfold Part000.deleteAndReport, Part000.deleteBranches.
  destruct (startAll_starts w names h) as (e1 & E1 & S1 & _).
  destruct (Part000.startAll w h names) as [h1 rs]. simpl in E1. subst h1.
  destruct (untilSettled_history w rs (e1 ++ h)) as (e2 & E2 & Q2 & O).
  destruct (Part000.untilSettled w (e1 ++ h) rs) as [[o h2] rest].
  simpl in E2, O. subst h2.
  destruct O as [->|[e ->]].
  - destruct (runLate_history rest (e2 ++ e1 ++ h)) as (e3 & -> & Q3).
    exists (e3 ++ e2 ++ e1). split; [rewrite <- !app_assoc; reflexivity|].
    rewrite !started_app, Q2, Q3, !app_nil_r. exact S1.
  - destruct (runLate_history rest
                (ConsoleError (js "An error occurred while deleting branches: " ++ e)
                   :: e2 ++ e1 ++ h)) as (e3 & -> & Q3).
    exists (e3 ++ ConsoleError (js "An error occurred while deleting branches: " ++ e)
               :: e2 ++ e1).
    split; [rewrite <- !app_assoc; simpl; rewrite <- !app_assoc; reflexivity|].
    rewrite started_app. cbn [started].
    rewrite started_app, Q2, Q3, !app_nil_r. exact S1.
Qed.

Lemma Part000_run_started :
  started (snd (Part000.run w)) = []
  \/ exists selected,
       started (snd (Part000.run w))
       = Part000.listCmd :: map Part000.deleteCmd selected.
Proof.
  rewrite Part000_main_run.
  destruct (locatedPart000 w); simpl negb; cbv iota; [|left; reflexivity].
  right.
  destruct (Part000.getGitBranches w []) as [o h] eqn:G.
  destruct (Part000_getGitBranches_history w _ G) as (r & -> & _ & _).
  destruct o as [branches|e|c|]; try (exists []; reflexivity).
  destruct (Part000.soleCurrent branches); [exists []; reflexivity|].
  destruct (Part000.selectBranchNames branches w _) as [o1 h1] eqn:Sel.
  destruct (Part000_selectBranchNames_history w _ _ Sel) as (e1 & -> & Q1 & _ & _).
  assert (S1 : started (e1 ++ [ExecDone Part000.listCmd r; ExecStart Part000.listCmd])
               = [Part000.listCmd])
    by (rewrite started_app, (quiet_started _ Q1); reflexivity).
  destruct o1 as [[|s selected]|e|c|]; try (exists []; exact S1).
  destruct (Part000.askForConfirmation (s :: selected) w _) as [o2 h2] eqn:Conf.
  destruct (askForConfirmation_history w _ _ Conf) as (e2 & -> & Q2 & _ & _).
  assert (S2 : started (e2 ++ e1 ++ [ExecDone Part000.listCmd r;
                                       ExecStart Part000.listCmd])
               = [Part000.listCmd])
    by (rewrite started_app, (quiet_started _ Q2), S1; reflexivity).
  destruct o2 as [[|]|e|c|]; try (exists []; exact S2).
  destruct (deleteAndReport_starts (s :: selected)
              (e2 ++ e1 ++ [ExecDone Part000.listCmd r; ExecStart Part000.listCmd]))
    as (e3 & -> & S3).
  exists (s :: selected). simpl snd. rewrite started_app, S2, S3. reflexivity.
Qed.

End RunFacts.

(** X21: a run of [src/git-branch-delete.ts] starts no command at all,
    or the enumeration command only, or the enumeration command and
    then one force-delete of a non-empty selection; never anything
    else. *)
Theorem X21_at_most_the_listing_and_one_delete (w : World) :
  started (snd (GitBranchDelete.run w)) = []
  \/ started (snd (GitBranchDelete.run w)) = [GitBranchDelete.listCmd]
  \/ exists selected,
       selected <> []
       /\ started (snd (GitBranchDelete.run w))
          = [GitBranchDelete.listCmd; GitBranchDelete.deleteCmd selected].
Proof.
  destruct (run_ends w) as [t E]. eapply ends_started. exact E.
Qed.

(** X22: a run of the second script starts no command at all, or the
    enumeration command followed by one force-delete for each name of a
    selection (none when nothing is selected or confirmed); never
    anything else. *)
Theorem X22_Part000_the_listing_then_the_deletes (w : World) :
  started (snd (Part000.run w)) = []
  \/ exists selected,
       started (snd (Part000.run w))
       = Part000.listCmd :: map Part000.deleteCmd selected.
Proof. apply Part000_run_started. Qed.



Section MoreRunFacts.

Variable w : World.

Lemma Part000_ends_rejection t res e :
  endsPart000 w t res -> fst res = Throw e ->
  (exists r,
     snd res = [ExecDone Part000.listCmd r; ExecStart Part000.listCmd]
     /\ isExecFailure (ExecDone Part000.listCmd r) = true)
  \/ (exists msg typed h', snd res = PromptInput msg typed Cancelled :: h').
Proof.
  intros E. destruct E; simpl fst; simpl snd; try discriminate; intros _.
  - left.
    match goal with
    | G : Part000.getGitBranches w [] = _ |- _ =>
        destruct (Part000_getGitBranches_history w _ G) as (r & -> & _ & F)
    end.
    exists r. split; [reflexivity | exact F].
  - right.
    match goal with
    | C : Part000.askForConfirmation _ w _ = _ |- _ =>
        rewrite askForConfirmation_run in C; cbv zeta in C;
        destruct (runInput validateYesNo _) eqn:R; try discriminate;
        injection C as _ <-
    end.
    eauto.
Qed.

Lemma Part000_ends_exit t res c :
  endsPart000 w t res -> fst res = Exit c -> c = 0%Z.
Proof.
  intros E. destruct E; simpl fst; try discriminate.
  intros Hc. injection Hc as <-. reflexivity.
Qed.



End MoreRunFacts.

(** X24: the second script never calls [process.exit] with a code other
    than 0, and its [main()] rejects in two cases only: the enumeration
    command has failed and nothing else has happened, or the
    confirmation prompt has just been cancelled.  (A failed deletion is
    not among them.) *)
Theorem X24_Part000_rejects_in_two_cases (w : World) :
  (forall c, fst (Part000.run w) = Exit c -> c = 0%Z)
  /\ (forall e, fst (Part000.run w) = Throw e ->
      (exists r,
         snd (Part000.run w)
           = [ExecDone Part000.listCmd r; ExecStart Part000.listCmd]
         /\ isExecFailure (ExecDone Part000.listCmd r) = true)
      \/ (exists msg typed h',
            snd (Part000.run w) = PromptInput msg typed Cancelled :: h')).
Proof.
  destruct (Part000_run_ends w) as [t E]. split.
  - intros c. eapply Part000_ends_exit. exact E.
  - intros e. eapply Part000_ends_rejection. exact E.
Qed.

Lemma X24_witness :
  (0 = 0)%Z
  /\ ((exists r,
         snd (Part000.run (session threeRefs Escape (ExecOk [])))
           = [ExecDone Part000.listCmd r; ExecStart Part000.listCmd]
         /\ isExecFailure (ExecDone Part000.listCmd r) = true)
      \/ (exists msg typed h',
            snd (Part000.run (session threeRefs Escape (ExecOk [])))
            = PromptInput msg typed Cancelled :: h')).
Proof.
  split.
  - apply (proj1 (X24_Part000_rejects_in_two_cases
                    (world home (onlyRepoAt home) (ExecOk threeRefs) Cancelled []
                       (ExecOk []))) 0%Z).
    vm_compute. reflexivity.
  - apply (proj2 (X24_Part000_rejects_in_two_cases
                    (session threeRefs Escape (ExecOk []))) []).
    vm_compute. reflexivity.
Defined.

(** X25: outside a repository both scripts print their notice and end
    normally: no command is run and nothing is asked. *)
Theorem X25_outside_a_repository (w : World) :
  (located w = false ->
   GitBranchDelete.run w =
     (Return tt,
      [ConsoleLog (colors w blue
         (js "Not a Git repository. Please navigate to a directory with a .git folder."))]))
  /\ (locatedPart000 w = false ->
      Part000.run w =
        (Return tt,
         [ConsoleLog (colors w blue
            (js "This is not a Git repository. Please go to a directoy with .git directory."))])).
Proof.
  split; intros L.
  - rewrite main_run, L. reflexivity.
  - rewrite Part000_main_run, L. reflexivity.
Qed.

Lemma X25_witness :
  let w := world home (fun _ => false) (ExecOk threeBranches)
             (Answered bothFeatures) [Submit yes] (ExecOk []) in
  GitBranchDelete.run w =
    (Return tt,
     [ConsoleLog (js "Not a Git repository. Please navigate to a directory with a .git folder.")])
  /\ Part000.run w =
       (Return tt,
        [ConsoleLog (js "This is not a Git repository. Please go to a directoy with .git directory.")]).
Proof.
  cbv zeta. split.
  - apply (proj1 (X25_outside_a_repository
                    (world home (fun _ => false) (ExecOk threeBranches)
                       (Answered bothFeatures) [Submit yes] (ExecOk [])))).
    reflexivity.
  - apply (proj2 (X25_outside_a_repository
                    (world home (fun _ => false) (ExecOk threeBranches)
                       (Answered bothFeatures) [Submit yes] (ExecOk [])))).
    reflexivity.
Defined.



(** X27: when the enumeration command fails, [src/git-branch-delete.ts]
    prints "Error: Failed to get git branches: " and the message of the
    failure to the error stream and exits with 1; the second script
    rejects with the failure as it is.  Neither asks or runs anything
    more. *)
Theorem X27_failed_listing (w : World) (e : jsstring) :
  exec w [] GitBranchDelete.listCmd = ExecErr e ->
  exec w [] Part000.listCmd = ExecErr e ->
  (located w = true ->
   GitBranchDelete.run w =
     (Exit 1%Z,
      [ProcessExit 1;
       ConsoleError (colors w red
         (js "Error: " ++ js "Failed to get git branches: " ++ e));
       ExecDone GitBranchDelete.listCmd (ExecErr e);
       ExecStart GitBranchDelete.listCmd]))
  /\ (locatedPart000 w = true ->
      Part000.run w =
        (Throw e,
         [ExecDone Part000.listCmd (ExecErr e); ExecStart Part000.listCmd])).
Proof.
  intros E1 E2. split; intros L.
  - rewrite main_run, L, getGitBranches_run, E1. reflexivity.
  - rewrite Part000_main_run, L, Part000_getGitBranches_run, E2. reflexivity.
Qed.

Lemma X27_witness :
  let w := world home (onlyRepoAt home) (ExecErr (js "git: not found"))
             (Answered bothFeatures) [Submit yes] (ExecOk []) in
  GitBranchDelete.run w =
    (Exit 1%Z,
     [ProcessExit 1;
      ConsoleError (js "Error: Failed to get git branches: git: not found");
      ExecDone GitBranchDelete.listCmd (ExecErr (js "git: not found"));
      ExecStart GitBranchDelete.listCmd])
  /\ Part000.run w =
       (Throw (js "git: not found"),
        [ExecDone Part000.listCmd (ExecErr (js "git: not found"));
         ExecStart Part000.listCmd]).
Proof.
  cbv zeta.
  destruct (@X27_failed_listing
              (world home (onlyRepoAt home) (ExecErr (js "git: not found"))
                 (Answered bothFeatures) [Submit yes] (ExecOk []))
              (js "git: not found") eq_refl eq_refl) as [Hts Hold].
  split; [apply Hts | apply Hold]; vm_compute; reflexivity.
Defined.

Section AnnounceFacts.

Variable w : World.

Lemma existsb_perm {A} (p : A -> bool) l l' :
  Permutation l l' -> existsb p l = existsb p l'.
Proof.
  induction 1 as [|x l l' _ IH|x y l|l l' l'' _ IH1 _ IH2]; simpl.
  - reflexivity.
  - rewrite IH. reflexivity.
  - destruct (p x), (p y); reflexivity.
  - congruence.
Qed.

Lemma filter_nil_existsb {A} (p : A -> bool) l :
  filter p l = [] -> existsb p l = false.
Proof.
  induction l as [|x l IH]; simpl; [reflexivity|].
  destruct (p x); [discriminate | exact IH].
Qed.

(** The record [src/git-branch-delete.ts] takes for the current one is
    current as soon as some record is. *)
Lemma sorted_head branches :
  match GitBranchDelete.sorted w branches with
  | [] => branches = []
  | c :: _ =>
      In c branches
      /\ GitBranchDelete.isCurrent c = existsb GitBranchDelete.isCurrent branches
  end.
Proof.
  unfold GitBranchDelete.sorted. rewrite sort_currentFirst.
  pose proof (sort_perm (GitBranchDelete.byName w) branches) as P.
  rewrite <- (existsb_perm GitBranchDelete.isCurrent P).
  destruct (filter GitBranchDelete.isCurrent
              (sort (GitBranchDelete.byName w) branches)) as [|c l] eqn:F.
  - simpl. rewrite (filter_nil_existsb _ _ F).
    destruct (sort (GitBranchDelete.byName w) branches) as [|x s] eqn:S.
    + simpl. apply Permutation_nil. exact P.
    + assert (Hx : GitBranchDelete.isCurrent x = false).
      { simpl in F. destruct (GitBranchDelete.isCurrent x) eqn:E;
          [discriminate | reflexivity]. }
      simpl. rewrite Hx. simpl. split; [|exact Hx].
      eapply Permutation_in; [exact P | left; reflexivity].
  - simpl.
    assert (Hc : In c (filter GitBranchDelete.isCurrent
                         (sort (GitBranchDelete.byName w) branches)))
      by (rewrite F; left; reflexivity).
    apply filter_In in Hc. destruct Hc as [Hin Hcur]. split.
    + eapply Permutation_in; [exact P | exact Hin].
    + rewrite Hcur. symmetry. apply existsb_exists. eauto.
Qed.

Lemma find_current branches :
  match find Part000.isCurrent (Part000.sortedBranches w branches) with
  | Some c => In c branches /\ Part000.isCurrent c = true
  | None => existsb Part000.isCurrent branches = false
  end.
Proof.
  unfold Part000.sortedBranches.
  pose proof (sort_perm (Part000.byName w) branches) as P.
  destruct (find Part000.isCurrent (sort (Part000.byName w) branches))
    as [c|] eqn:F.
  - apply find_some in F. destruct F as [Hin Hcur].
    split; [eapply Permutation_in; eassumption | exact Hcur].
  - rewrite <- (existsb_perm Part000.isCurrent P).
    destruct (existsb Part000.isCurrent (sort (Part000.byName w) branches))
      eqn:E; [|reflexivity].
    apply existsb_exists in E. destruct E as (x & Hx & Hcur).
    rewrite (find_none _ _ F x Hx) in Hcur. discriminate.
Qed.

End AnnounceFacts.

(** X28: before the selection prompt both scripts print one line
    "Current branch: name (relative time)" for a current record of the
    listing when there is one, and nothing when there is none; the
    prompt that follows carries the choice list. *)
Theorem X28_current_branch_announced (w : World) :
  (forall branches h,
     exists h0,
       In (PromptMultiselect (GitBranchDelete.choices w branches)
             (multiselect w h0 (GitBranchDelete.choices w branches)))
          (snd (GitBranchDelete.selectBranchNames branches w h))
       /\ if existsb GitBranchDelete.isCurrent branches
          then exists c,
                 In c branches /\ GitBranchDelete.isCurrent c = true
                 /\ h0 = ConsoleLog
                          (colors w yellow
                             (js "Current branch: " ++ GitBranchDelete.name c
                              ++ js " (" ++ GitBranchDelete.lastCommitRelative c
                              ++ js ")")) :: h
          else h0 = h)
  /\ (forall branches h,
        exists h0,
          In (PromptMultiselect (Part000.choices w branches)
                (multiselect w h0 (Part000.choices w branches)))
             (snd (Part000.selectBranchNames branches w h))
          /\ if existsb Part000.isCurrent branches
             then exists c,
                    In c branches /\ Part000.isCurrent c = true
                    /\ h0 = ConsoleLog
                             (colors w yellow
                                (js "Current branch: " ++ Part000.name c
                                 ++ js " (" ++ Part000.lastCommitRelative c
                                 ++ js ")")) :: h
             else h0 = h).
Proof.
  split; intros branches h.
  - pose proof (sorted_head w branches) as Hhead.
    unfold GitBranchDelete.selectBranchNames, bind, paint, consoleLog, emit,
      ret, promptMultiselect, processExit, pending.
    destruct (GitBranchDelete.sorted w branches) as [|c rest].
    + subst branches. exists h. split; [|reflexivity].
      destruct (multiselect w h _); simpl; auto.
    + destruct Hhead as [Hin Hcur]. rewrite <- Hcur.
      destruct (GitBranchDelete.isCurrent c) eqn:Ec.
      * eexists. split; [|exists c; repeat split; [exact Hin | exact Ec]].
        destruct (multiselect w _ _); simpl; auto.
      * exists h. split; [|reflexivity].
        destruct (multiselect w h _); simpl; auto.
  - pose proof (find_current w branches) as Hfind.
    unfold Part000.selectBranchNames, bind, paint, consoleLog, emit,
      ret, promptMultiselect, processExit, pending.
    destruct (find Part000.isCurrent (Part000.sortedBranches w branches))
      as [c|].
    + destruct Hfind as [Hin Hcur].
      assert (E : existsb Part000.isCurrent branches = true)
        by (apply existsb_exists; eauto).
      rewrite E.
      eexists. split; [|exists c; repeat split; [exact Hin | exact Hcur]].
      destruct (multiselect w _ _); simpl; auto.
    + rewrite Hfind. exists h. split; [|reflexivity].
      destruct (multiselect w h _); simpl; auto.
Qed.

Section ExtendFacts.

Variable w : World.



End ExtendFacts.


